(** * SpotifyClient: a shallow embedding of [spt_client.py]

    The client is a thin layer over four HTTP GET endpoints.  Each method
    performs one request, checks the status code, and projects the parsed
    JSON body.  The embedding keeps the Python control flow: exceptions are
    the [Raise] branch of a small error monad, local variables that may be
    left unassigned are options, and the HTTP transport ([requests.get]) is
    a parameter of the client. *)

From stdpp Require Import gmap strings list fin_maps.
From Stdlib Require Import ZArith String Ascii Sorting.Sorted Sorting.Permutation.

Local Set Warnings "-register-all".
Local Open Scope Z_scope.
Local Open Scope string_scope.

(** ** Python 3 values and exceptions *)

Module Py.

(** The values [json.loads] can produce.  Numbers are restricted to
    integers (every numeric field of the catalog is one); a [str] is a
    sequence of characters with code points below 256, one [ascii] each. *)
Inductive value : Type :=
| VNone
| VBool (b : bool)
| VInt (n : Z)
| VStr (s : string)
| VList (l : list value)
| VDict (d : gmap string value).

(** The exception classes that the client or the interpreter can raise on
    the paths of the four methods. *)
Inductive exn : Type :=
| SpotifyClientException (message : string)
| TypeError
| KeyError (key : string)
| UnboundLocalError (name : string)
| JSONDecodeError
| RequestException.

(** A computation either returns or raises. *)
Inductive result (A : Type) : Type :=
| Ok (a : A)
| Raise (e : exn).

Arguments Ok {A} a.
Arguments Raise {A} e.

Definition bind {A B : Type} (m : result A) (k : A -> result B) : result B :=
  match m with
  | Ok a => k a
  | Raise e => Raise e
  end.

Notation "x <- m ;; k" := (bind m (fun x => k))
  (at level 100, m at next level, right associativity).

(** [mapM f l] evaluates [f] on the elements from left to right and stops
    at the first exception, like a list comprehension. *)
Fixpoint mapM {A B : Type} (f : A -> result B) (l : list A) : result (list B) :=
  match l with
  | [] => Ok []
  | x :: l' => y <- f x ;; ys <- mapM f l' ;; Ok (y :: ys)
  end.

(** Truth value testing: [if v:]. *)
Definition truthy (v : value) : bool :=
  match v with
  | VNone => false
  | VBool b => b
  | VInt n => negb (n =? 0)%Z
  | VStr s => negb (String.eqb s "")
  | VList l => match l with [] => false | _ :: _ => true end
  | VDict d => negb (bool_decide (d = ∅))
  end.

(** Subscription with a string key: [v[k]]. *)
Definition getitem (v : value) (k : string) : result value :=
  match v with
  | VDict d =>
      match d !! k with
      | Some x => Ok x
      | None => Raise (KeyError k)
      end
  | _ => Raise TypeError
  end.

(** The elements an iteration over [v] yields.  A dict yields its keys;
    their order is that of insertion, which a [gmap] does not record:
    every use below fails on the first key whatever it is. *)
Definition iter (v : value) : result (list value) :=
  match v with
  | VList l => Ok l
  | VStr s => Ok ((fun c => VStr (String c "")) <$> list_ascii_of_string s)
  | VDict d => Ok (VStr <$> (map_to_list d).*1)
  | _ => Raise TypeError
  end.

(** [a == b]; [bool] is a subclass of [int], so [True == 1]. *)
Fixpoint py_eq (a b : value) {struct a} : bool :=
  match a, b with
  | VNone, VNone => true
  | VStr s, VStr t => String.eqb s t
  | VList l, VList m =>
      (fix go (l m : list value) {struct l} : bool :=
         match l, m with
         | [], [] => true
         | x :: l', y :: m' => py_eq x y && go l' m'
         | _, _ => false
         end) l m
  | VDict d, VDict e =>
      map_fold (fun _ (b : bool) acc => b && acc) true
        (merge (fun x y =>
                  match x, y with
                  | Some u, Some v => Some (py_eq u v)
                  | None, None => None
                  | _, _ => Some false
                  end) d e)
  | VBool x, VBool y => Bool.eqb x y
  | VBool x, VInt n => (Z.b2z x =? n)%Z
  | VInt n, VBool y => (n =? Z.b2z y)%Z
  | VInt n, VInt k => (n =? k)%Z
  | _, _ => false
  end.

(** [a < b], which raises [TypeError] between unordered types.  Lists
    are ordered by their first unequal elements, then by length. *)
Fixpoint py_lt (a b : value) {struct a} : result bool :=
  match a, b with
  | VStr s, VStr t => Ok (String.ltb s t)
  | VList l, VList m =>
      (fix go (l m : list value) {struct l} : result bool :=
         match l, m with
         | x :: l', y :: m' => if py_eq x y then go l' m' else py_lt x y
         | [], _ :: _ => Ok true
         | _, [] => Ok false
         end) l m
  | VBool x, VBool y => Ok (Z.b2z x <? Z.b2z y)%Z
  | VBool x, VInt n => Ok (Z.b2z x <? n)%Z
  | VInt n, VBool y => Ok (n <? Z.b2z y)%Z
  | VInt n, VInt k => Ok (n <? k)%Z
  | _, _ => Raise TypeError
  end.

(** *** The builtin [sorted] *)

(** A stable insertion sort on (key, item) pairs that uses only [<] on the
    keys, as [list.sort] does.  [x] precedes every element of the sorted
    tail in the input, so it is placed before the first [y] that is not
    smaller than it. *)
Fixpoint insort (x : value * value) (l : list (value * value))
  : result (list (value * value)) :=
  match l with
  | [] => Ok [x]
  | y :: l' =>
      b <- py_lt y.1 x.1 ;;
      if b then (r <- insort x l' ;; Ok (y :: r)) else Ok (x :: y :: l')
  end.

Fixpoint isort (l : list (value * value)) : result (list (value * value)) :=
  match l with
  | [] => Ok []
  | x :: l' => s <- isort l' ;; insort x s
  end.

(** A keyword argument is a function or a plain value. *)
Inductive arg : Type :=
| AFun (f : value -> result value)
| AVal (v : value).

(** The keywords [sorted] accepts. *)
Definition sorted_keywords : list string := ["key"; "reverse"].

Definition lookup_kw (k : string) (kwargs : list (string * arg)) : option arg :=
  snd <$> List.find (fun kw => String.eqb kw.1 k) kwargs.

(** [key=None] is the identity; a value that is not callable fails when
    it is first called. *)
Definition key_of (kwargs : list (string * arg)) : value -> result value :=
  match lookup_kw "key" kwargs with
  | None | Some (AVal VNone) => fun v => Ok v
  | Some (AFun f) => f
  | Some (AVal _) => fun _ => Raise TypeError
  end.

(** [reverse] is read as an integer flag. *)
Definition reverse_of (kwargs : list (string * arg)) : result bool :=
  match lookup_kw "reverse" kwargs with
  | None => Ok false
  | Some (AVal (VBool b)) => Ok b
  | Some (AVal (VInt n)) => Ok (negb (n =? 0)%Z)
  | Some _ => Raise TypeError
  end.

(** [sorted(iterable, **kwargs)]: a new list from the iterable, the
    keywords checked, the keys computed for every element, then the stable
    sort; [reverse] sorts the reversed list and reverses the outcome. *)
Definition sorted (iterable : value) (kwargs : list (string * arg)) : result value :=
  l <- iter iterable ;;
  if forallb (fun kw => bool_decide (kw.1 ∈ sorted_keywords)) kwargs then
    reverse <- reverse_of kwargs ;;
    keys <- mapM (key_of kwargs) l ;;
    let pairs := zip keys l in
    s <- isort (if reverse then rev pairs else pairs) ;;
    Ok (VList (if reverse then rev s else s).*2)
  else Raise TypeError.

End Py.

Export Py.

(** ** The HTTP transport *)

(** What the client reads of a [requests.Response]: the status code and
    the body, [None] when the body is not a JSON document. *)
Record Response : Type := {
  status_code : Z;
  body : option value
}.

(** [res.json()]. *)
Definition json (res : Response) : result value :=
  match body res with
  | Some v => Ok v
  | None => Raise JSONDecodeError
  end.

(** ** The client *)

Section SpotifyClient.

(** [requests.get(url, params=payload)]; a request without parameters
    carries the empty payload. *)
Variable requests_get : string -> list (string * value) -> result Response.

Definition _main_api_path : string := "https://api.spotify.com/v1/artists".

Definition get_artist_data (artist_id : string) : result value :=
  let url := _main_api_path +:+ "/" +:+ artist_id in
  res <- requests_get url [] ;;
  if negb (status_code res =? 200)%Z then
    Raise (SpotifyClientException "Improper client id or service unavailable")
  else json res.

(** The local [results] is bound on some branches only; [return results]
    reads it, and fails when it was never assigned. *)
Definition get_multiple_artists_data (ids : list string) (sort_by : string)
  : result value :=
  let payload := [("ids", VStr (String.concat "," ids))] in
  res <- requests_get _main_api_path payload ;;
  if negb (status_code res =? 200)%Z then
    Raise (SpotifyClientException "Improper client id or service unavailable")
  else
    results <-
      (if String.eqb sort_by "default" then
         artists <- (j <- json res ;; getitem j "artists") ;;
         Ok (Some artists)
       else if String.eqb sort_by "name" then
         artist_list <- (j <- json res ;; getitem j "artists") ;;
         if truthy artist_list then
           s <- sorted artist_list
                  [("key", AFun (fun item => getitem item "name"))] ;;
           Ok (Some s)
         else Ok None
       else if String.eqb sort_by "popularity" then
         artist_list <- (j <- json res ;; getitem j "artists") ;;
         if truthy artist_list then
           s <- sorted artist_list
                  [("key", AFun (fun item => getitem item "popularity"));
                   ("reversed", AVal (VBool true))] ;;
           Ok (Some s)
         else Ok None
       else Raise (SpotifyClientException "Improper value of sort_by")) ;;
    match results with
    | Some r => Ok r
    | None => Raise (UnboundLocalError "results")
    end.

Definition get_artist_albums_titles (artist_id : string) (quantity : Z)
  : result value :=
  let url := _main_api_path +:+ "/" +:+ artist_id +:+ "/albums" in
  let payload := [("limit", VInt quantity)] in
  res <- requests_get url payload ;;
  if negb (status_code res =? 200)%Z then
    Raise (SpotifyClientException "Improper client id or service unavailable")
  else
    response_json <- json res ;;
    items <- getitem response_json "items" ;;
    l <- iter items ;;
    titles <- mapM (fun item => getitem item "name") l ;;
    Ok (VList titles).

Definition get_best_songs (artist_id : string) (country : string)
  : result value :=
  let url := _main_api_path +:+ "/" +:+ artist_id +:+ "/top-tracks" in
  let payload := [("country", VStr country)] in
  res <- requests_get url payload ;;
  if negb (status_code res =? 200)%Z then
    Raise (SpotifyClientException
             "Improper client id or country code or service unavailable")
  else
    response_json <- json res ;;
    tracks_json <- getitem response_json "tracks" ;;
    l <- iter tracks_json ;;
    tracks <- mapM (fun item =>
                      name <- getitem item "name" ;;
                      popularity <- getitem item "popularity" ;;
                      Ok (VList [name; popularity])) l ;;
    Ok (VList tracks).

End SpotifyClient.

(** ** Outcomes and orders used in the statements *)

(** The recognised values of [sort_by]. *)
Definition sort_options : list string := ["default"; "name"; "popularity"].

(** The two messages of [get_multiple_artists_data]. *)
Definition msg_unavailable : string := "Improper client id or service unavailable".
Definition msg_sort_by : string := "Improper value of sort_by".

Definition succeeds {A : Type} (r : result A) : Prop := exists a, r = Ok a.
Definition raises {A : Type} (r : result A) : Prop := exists e, r = Raise e.
Definition raises_client_error {A : Type} (r : result A) : Prop :=
  exists message, r = Raise (SpotifyClientException message).

(** The client's own exception, as opposed to the interpreter's. *)
Definition is_client_error (e : exn) : bool :=
  match e with
  | SpotifyClientException _ => true
  | _ => false
  end.

(** The [name] of an item, when it is a dict with a string under that key. *)
Definition name_of (item : value) : option string :=
  match getitem item "name" with
  | Ok (VStr s) => Some s
  | _ => None
  end.

(** [a] comes no later than [b] in the order of their names. *)
Definition name_le (a b : value) : Prop :=
  match name_of a, name_of b with
  | Some s, Some t => String.leb s t = true
  | _, _ => False
  end.

(** A pair whose key is the name of its item. *)
Definition keyed (p : value * value) : Prop :=
  exists s, p.1 = VStr s /\ name_of p.2 = Some s.

Definition pair_le (p q : value * value) : Prop := name_le p.2 q.2.

(** ** Sample data *)

Definition artist (name : string) (popularity : Z) : value :=
  VDict (<["name" := VStr name]> (<["popularity" := VInt popularity]> ∅)).

Definition artists_body (l : list value) : value :=
  VDict (<["artists" := VList l]> ∅).

(** A transport that answers every request with the same response. *)
Definition serve (res : Response) : string -> list (string * value) -> result Response :=
  fun _ _ => Ok res.

Definition ok_response (v : value) : Response :=
  {| status_code := 200; body := Some v |}.

Definition not_found : Response := {| status_code := 404; body := None |}.

Definition two_artists : list value := [artist "Queen" 10; artist "Abba" 90].

Definition album (name : string) : value := VDict (<["name" := VStr name]> ∅).

Definition track (name : string) (popularity : Z) : value :=
  VDict (<["name" := VStr name]> (<["popularity" := VInt popularity]> ∅)).

Definition albums_body (l : list value) : value := VDict (<["items" := VList l]> ∅).

Definition tracks_body (l : list value) : value := VDict (<["tracks" := VList l]> ∅).

Definition guns_n_roses : value :=
  VDict (<["name" := VStr "Guns N' Roses"]>
         (<["popularity" := VInt 82]>
          (<["id" := VStr "3qm84nBOXUEQ2vnTfUTTFC"]> ∅))).

(** ** The self-test and the command line *)

(** What can end the script: an exception of the client or of the
    interpreter, the plain [Exception] of the self-test, the [HTTPError]
    of [raise_for_status], or the [SystemExit] of [argparse]. *)
Inductive signal : Type :=
| Exn (e : exn)
| Exception (message : string)
| HTTPError
| SystemExit (code : Z).

Inductive outcome (A : Type) : Type :=
| Returned (a : A)
| Raised (s : signal).

Arguments Returned {A} a.
Arguments Raised {A} s.

(** Standard output, one entry per call of [print]: the objects printed.
    Their rendering as text is not modelled. *)
Definition stdout : Type := list (list value).

(** A statement of the script runs on the output so far, and returns or
    raises with the output it leaves. *)
Definition io (A : Type) : Type := stdout -> stdout * outcome A.

Definition ret {A : Type} (a : A) : io A := fun out => (out, Returned a).

Definition raise {A : Type} (s : signal) : io A := fun out => (out, Raised s).

Definition bind_io {A B : Type} (m : io A) (k : A -> io B) : io B :=
  fun out =>
    match m out with
    | (out', Returned a) => k a out'
    | (out', Raised s) => (out', Raised s)
    end.

Notation "x <~ m ;; k" := (bind_io m (fun x => k))
  (at level 100, m at next level, right associativity).

(** A call into the client. *)
Definition lift {A : Type} (r : result A) : io A :=
  match r with
  | Ok a => ret a
  | Raise e => raise (Exn e)
  end.

Definition print (args : list value) : io unit :=
  fun out => ((out ++ [args])%list, Returned tt).

(** [try: m / except Exception: h].  [SystemExit] is not an [Exception]. *)
Definition try_except {A : Type} (m : io A) (h : io A) : io A :=
  fun out =>
    match m out with
    | (out', Raised (SystemExit code)) => (out', Raised (SystemExit code))
    | (out', Raised _) => h out'
    | (out', Returned a) => (out', Returned a)
    end.

(** [resp.raise_for_status()]: an error for the statuses 400 to 599. *)
Definition raise_for_status (resp : Response) : io unit :=
  if (400 <=? status_code resp)%Z && (status_code resp <? 600)%Z
  then raise HTTPError
  else ret tt.

(** [ap.parse_args()] read at [artist_id], for a command line that holds
    at most the flag [-a]/[--artist_id]: the flag is required, and without
    it [argparse] writes its usage to standard error and exits with 2. *)
Definition parse_args (flag : option string) : io string :=
  match flag with
  | Some artist_id => ret artist_id
  | None => raise (SystemExit 2)
  end.

Section Script.

(** [session.get(url)].  The mock adapter is mounted under the prefix
    [mock], which the URL requested does not have, so the request is an
    ordinary one and the adapter plays no part. *)
Variable session_get : string -> result Response.
Variable requests_get : string -> list (string * value) -> result Response.

Definition unit_tests : io unit :=
  resp <~ lift (session_get
                  "https://api.spotify.com/v1/artists/3qm84nBOXUEQ2vnTfUTTFC") ;;
  _ <~ try_except (raise_for_status resp) (raise (Exception "Tests failed")) ;;
  failed <~ (j <~ lift (json resp) ;;
             if negb (truthy j) then ret true
             else
               j' <~ lift (json resp) ;;
               name <~ lift (getitem j' "name") ;;
               ret (negb (py_eq name (VStr "Guns N' Roses")))) ;;
  if failed then raise (Exception "Tests failed") else ret tt.

(** [get_artist_albums_titles] and [get_best_songs] are called with their
    defaults, [quantity=10] and [country='PL']. *)
Definition main (flag : option string) : io unit :=
  _ <~ unit_tests ;;
  test_artist_id <~ parse_args flag ;;
  artist_info <~ lift (get_artist_data requests_get test_artist_id) ;;
  first_10_album_titles <~
    lift (get_artist_albums_titles requests_get test_artist_id 10) ;;
  most_popular_songs <~ lift (get_best_songs requests_get test_artist_id "PL") ;;
  name <~ lift (getitem artist_info "name") ;;
  _ <~ print [VStr "Artist:"; name] ;;
  _ <~ print [VStr "First 10 album titles:"; first_10_album_titles] ;;
  print [VStr "Most popular songs:"; most_popular_songs].

End Script.

(** What a successful run prints. *)
Definition report (name first_10_album_titles most_popular_songs : value) : stdout :=
  [[VStr "Artist:"; name];
   [VStr "First 10 album titles:"; first_10_album_titles];
   [VStr "Most popular songs:"; most_popular_songs]].

(** The URL of the self-test. *)
Definition self_test_url : string :=
  "https://api.spotify.com/v1/artists/3qm84nBOXUEQ2vnTfUTTFC".

(** The items of [l] whose name is [s], in the order of [l]. *)
Definition named (s : string) (l : list value) : list value :=
  filter (fun item => name_of item = Some s) l.

(** A transport that answers by URL, and fails on a URL it does not know. *)
Definition route (table : list (string * Response))
  : string -> list (string * value) -> result Response :=
  fun url _ =>
    match List.find (fun entry => String.eqb entry.1 url) table with
    | Some entry => Ok entry.2
    | None => Raise RequestException
    end.

Definition gnr_id : string := "3qm84nBOXUEQ2vnTfUTTFC".

Definition gnr_albums : list value := [album "Lies"; album "Appetite"].

Definition gnr_tracks : list value := [track "Patience" 70; track "Paradise City" 81].

Definition gnr_catalog : list (string * Response) :=
  [("https://api.spotify.com/v1/artists/3qm84nBOXUEQ2vnTfUTTFC",
    ok_response guns_n_roses);
   ("https://api.spotify.com/v1/artists/3qm84nBOXUEQ2vnTfUTTFC/albums",
    ok_response (albums_body gnr_albums));
   ("https://api.spotify.com/v1/artists/3qm84nBOXUEQ2vnTfUTTFC/top-tracks",
    ok_response (tracks_body gnr_tracks))].

(** ** Facts about the monad and the status check *)

Lemma mapM_Forall2 {A B : Type} (f : A -> result B) (l : list A) (ys : list B) :
  Forall2 (fun x y => f x = Ok y) l ys -> mapM f l = Ok ys.
Proof.
  induction 1 as [|x y l ys Hx _ IH]; simpl; [reflexivity|].
  rewrite Hx, IH. reflexivity.
Qed.

Lemma status_not_ok (res : Response) :
  status_code res <> 200 -> negb (status_code res =? 200)%Z = true.
Proof. intros H. apply negb_true_iff, Z.eqb_neq, H. Qed.

Lemma status_ok (res : Response) :
  status_code res = 200 -> negb (status_code res =? 200)%Z = false.
Proof. intros ->. reflexivity. Qed.

Lemma sort_by_unrecognised (sort_by : string) :
  sort_by ∉ sort_options ->
  String.eqb sort_by "default" = false /\
  String.eqb sort_by "name" = false /\
  String.eqb sort_by "popularity" = false.
Proof.
  unfold sort_options. intros H.
  repeat split; apply String.eqb_neq; intros ->; apply H; set_solver.
Qed.

(** ** Which exceptions the interpreter raises *)

Lemma json_raises (res : Response) (e : exn) :
  json res = Raise e -> e = JSONDecodeError.
Proof. unfold json. destruct (body res); intros [=]; congruence. Qed.

Lemma getitem_raises (v : value) (k : string) (e : exn) :
  getitem v k = Raise e -> e = TypeError \/ e = KeyError k.
Proof.
  destruct v as [| | | | |d]; simpl; try (intros [= <-]; left; reflexivity).
  destruct (d !! k); intros [=]; subst; right; reflexivity.
Qed.

Lemma iter_raises (v : value) (e : exn) : iter v = Raise e -> e = TypeError.
Proof. destruct v; simpl; intros [=]; congruence. Qed.

Lemma py_lt_raises : forall (a b : value) (e : exn),
  py_lt a b = Raise e -> e = TypeError.
Proof.
  fix IH 1. intros a b e.
  destruct a as [|x|n|s|l|d]; destruct b as [|y|k|t|m|d']; simpl;
    try (intros [=]; congruence).
  revert m. induction l as [|u l IHl]; intros [|w m]; try (intros [=]; congruence).
  destruct (py_eq u w); [apply IHl | apply IH].
Qed.

Lemma insort_raises (x : value * value) (l : list (value * value)) (e : exn) :
  insort x l = Raise e -> e = TypeError.
Proof.
  induction l as [|y l IH]; simpl; [intros [=]|].
  destruct (py_lt y.1 x.1) as [[|]|e'] eqn:E; simpl.
  - destruct (insort x l); simpl; intros [=]. subst. apply IH. reflexivity.
  - intros [=].
  - intros [= <-]. eapply py_lt_raises, E.
Qed.

Lemma isort_raises (l : list (value * value)) (e : exn) :
  isort l = Raise e -> e = TypeError.
Proof.
  induction l as [|x l IH]; simpl; [intros [=]|].
  destruct (isort l) as [s|e']; simpl.
  - apply insort_raises.
  - intros [= <-]. apply IH. reflexivity.
Qed.

Lemma mapM_raises {A B : Type} (P : exn -> Prop) (f : A -> result B) (l : list A) :
  (forall x e, f x = Raise e -> P e) ->
  forall e, mapM f l = Raise e -> P e.
Proof.
  intros Hf e. induction l as [|x l IH]; simpl; [intros [=]|].
  destruct (f x) as [y|e'] eqn:E; simpl.
  - destruct (mapM f l); simpl; intros [=]. subst. apply IH. reflexivity.
  - intros [= <-]. eapply Hf, E.
Qed.

(** A keyword that [sorted] does not know is a [TypeError], whatever the
    iterable and the other keywords. *)
Lemma sorted_unknown_keyword (v : value) (kwargs : list (string * arg)) :
  forallb (fun kw => bool_decide (kw.1 ∈ sorted_keywords)) kwargs = false ->
  sorted v kwargs = Raise TypeError.
Proof.
  intros H. unfold sorted.
  destruct (iter v) as [l|e] eqn:E; simpl.
  - rewrite H. reflexivity.
  - f_equal. eapply iter_raises, E.
Qed.

(** Sorting by a field of the items. *)
Lemma sorted_by_field (v : value) (k : string) :
  sorted v [("key", AFun (fun item => getitem item k))]
  = (l <- iter v ;;
     keys <- mapM (fun item => getitem item k) l ;;
     s <- isort (zip keys l) ;;
     Ok (VList s.*2)).
Proof. reflexivity. Qed.

Lemma sorted_by_field_raises (v : value) (k : string) (e : exn) :
  sorted v [("key", AFun (fun item => getitem item k))] = Raise e ->
  is_client_error e = false.
Proof.
  rewrite sorted_by_field.
  destruct (iter v) as [l|e1] eqn:E1; simpl.
  2:{ intros [= <-]. apply iter_raises in E1 as ->. reflexivity. }
  destruct (mapM _ l) as [keys|e2] eqn:E2; simpl.
  2:{ intros [= <-]. revert E2.
      apply (mapM_raises (fun e => is_client_error e = false)).
      intros x e Hx. apply getitem_raises in Hx as [-> | ->]; reflexivity. }
  destruct (isort _) as [s|e3] eqn:E3; simpl; intros [=]. subst.
  apply isort_raises in E3 as ->. reflexivity.
Qed.

Lemma artists_raises (res : Response) (e : exn) :
  (j <- json res ;; getitem j "artists") = Raise e -> is_client_error e = false.
Proof.
  destruct (json res) as [j|e1] eqn:E1; simpl.
  - intros H. apply getitem_raises in H as [-> | ->]; reflexivity.
  - intros [= <-]. apply json_raises in E1 as ->. reflexivity.
Qed.

Lemma sort_by_recognised (sort_by : string) :
  sort_by ∈ sort_options ->
  sort_by = "default" \/ sort_by = "name" \/ sort_by = "popularity".
Proof.
  unfold sort_options. rewrite !elem_of_cons, elem_of_nil. tauto.
Qed.

(** ** Non-200 responses *)

Section Client_errors.

Variable requests_get : string -> list (string * value) -> result Response.

(** C1: whatever the response body, each of the four fetch operations
    raises [SpotifyClientException] when the status is not 200; the
    outcome is the exception alone, whether or not the body would parse. *)
Theorem non_200_raises_client_error (res : Response) :
  status_code res <> 200 ->
  (forall artist_id,
      requests_get (_main_api_path +:+ "/" +:+ artist_id) [] = Ok res ->
      get_artist_data requests_get artist_id
      = Raise (SpotifyClientException msg_unavailable)) /\
  (forall ids sort_by,
      requests_get _main_api_path [("ids", VStr (String.concat "," ids))] = Ok res ->
      get_multiple_artists_data requests_get ids sort_by
      = Raise (SpotifyClientException msg_unavailable)) /\
  (forall artist_id quantity,
      requests_get (_main_api_path +:+ "/" +:+ artist_id +:+ "/albums")
        [("limit", VInt quantity)] = Ok res ->
      get_artist_albums_titles requests_get artist_id quantity
      = Raise (SpotifyClientException msg_unavailable)) /\
  (forall artist_id country,
      requests_get (_main_api_path +:+ "/" +:+ artist_id +:+ "/top-tracks")
        [("country", VStr country)] = Ok res ->
      get_best_songs requests_get artist_id country
      = Raise (SpotifyClientException
                 "Improper client id or country code or service unavailable")).
Proof.
  intros Hs. apply status_not_ok in Hs.
  repeat split; intros;
    unfold get_artist_data, get_multiple_artists_data,
      get_artist_albums_titles, get_best_songs; cbv zeta;
    rewrite H; unfold bind; rewrite Hs; reflexivity.
Qed.

(** C10: in [get_multiple_artists_data] the status check comes first.  A
    non-200 response gives the service-unavailable message for every
    [sort_by], recognised or not, and the sort-option message is only ever
    raised for a response with status 200. *)
Theorem status_check_precedes_sort_by (ids : list string) (sort_by : string)
    (res : Response) :
  requests_get _main_api_path [("ids", VStr (String.concat "," ids))] = Ok res ->
  (status_code res <> 200 ->
   get_multiple_artists_data requests_get ids sort_by
   = Raise (SpotifyClientException msg_unavailable)) /\
  (get_multiple_artists_data requests_get ids sort_by
   = Raise (SpotifyClientException msg_sort_by) ->
   status_code res = 200).
Proof.
  intros Hget. unfold get_multiple_artists_data. cbv zeta.
  rewrite Hget. cbn [bind].
  destruct (Z.eq_dec (status_code res) 200) as [E|N].
  - split; [contradiction | intros _; exact E].
  - rewrite (status_not_ok _ N). unfold msg_sort_by.
    split; [intros _; reflexivity | intros H; discriminate H].
Qed.

End Client_errors.

(** ** 200 responses: the projections *)

Section Projections.

Variable requests_get : string -> list (string * value) -> result Response.

(** C6: on a 200 response [get_artist_data] returns the parsed body
    itself, with nothing added, dropped or changed. *)
Theorem get_artist_data_identity (artist_id : string) (res : Response)
    (profile : value) :
  requests_get (_main_api_path +:+ "/" +:+ artist_id) [] = Ok res ->
  status_code res = 200 ->
  json res = Ok profile ->
  get_artist_data requests_get artist_id = Ok profile.
Proof.
  intros Hget Hs Hj. unfold get_artist_data. cbv zeta.
  rewrite Hget. cbn [bind]. rewrite (status_ok _ Hs). exact Hj.
Qed.

(** The titles are the [name] fields of the items, whatever their type. *)
Lemma album_titles_projection (artist_id : string) (quantity : Z)
    (res : Response) (j : value) (items names : list value) :
  requests_get (_main_api_path +:+ "/" +:+ artist_id +:+ "/albums")
    [("limit", VInt quantity)] = Ok res ->
  status_code res = 200 ->
  json res = Ok j ->
  getitem j "items" = Ok (VList items) ->
  Forall2 (fun item name => getitem item "name" = Ok name) items names ->
  get_artist_albums_titles requests_get artist_id quantity = Ok (VList names).
Proof.
  intros Hget Hs Hj Hitems Hnames. unfold get_artist_albums_titles. cbv zeta.
  rewrite Hget. cbn [bind]. rewrite (status_ok _ Hs), Hj. cbn [bind].
  rewrite Hitems. cbn [bind iter].
  rewrite (mapM_Forall2 _ _ _ Hnames). reflexivity.
Qed.

(** C7: on a 200 response [get_artist_albums_titles] returns the album
    names in the order of the server's [items] array, one per item: the
    list is as long as [items], also when that is more than [quantity]. *)
Theorem album_titles_in_server_order (artist_id : string) (quantity : Z)
    (res : Response) (j : value) (items : list value) (names : list string) :
  requests_get (_main_api_path +:+ "/" +:+ artist_id +:+ "/albums")
    [("limit", VInt quantity)] = Ok res ->
  status_code res = 200 ->
  json res = Ok j ->
  getitem j "items" = Ok (VList items) ->
  Forall2 (fun item name => getitem item "name" = Ok (VStr name)) items names ->
  get_artist_albums_titles requests_get artist_id quantity
  = Ok (VList (VStr <$> names)) /\
  List.length (VStr <$> names) = List.length items.
Proof.
  intros Hget Hs Hj Hitems Hnames. split.
  - eapply album_titles_projection; eauto.
    apply Forall2_fmap_r. exact Hnames.
  - rewrite length_fmap. symmetry. eapply Forall2_length, Hnames.
Qed.

(** C8: on a 200 response [get_best_songs] returns one [[name, popularity]]
    pair per track, in the order of the server's [tracks] array. *)
Theorem best_songs_in_server_order (artist_id country : string)
    (res : Response) (j : value) (tracks : list value)
    (pairs : list (value * value)) :
  requests_get (_main_api_path +:+ "/" +:+ artist_id +:+ "/top-tracks")
    [("country", VStr country)] = Ok res ->
  status_code res = 200 ->
  json res = Ok j ->
  getitem j "tracks" = Ok (VList tracks) ->
  Forall2 (fun item p => getitem item "name" = Ok p.1 /\
                         getitem item "popularity" = Ok p.2) tracks pairs ->
  get_best_songs requests_get artist_id country
  = Ok (VList ((fun p => VList [p.1; p.2]) <$> pairs)).
Proof.
  intros Hget Hs Hj Htracks Hpairs. unfold get_best_songs. cbv zeta.
  rewrite Hget. cbn [bind]. rewrite (status_ok _ Hs), Hj. cbn [bind].
  rewrite Htracks. cbn [bind iter].
  erewrite mapM_Forall2; [reflexivity|].
  apply Forall2_fmap_r. eapply Forall2_impl; [exact Hpairs|].
  intros item p [Hn Hp]. simpl. rewrite Hn, Hp. reflexivity.
Qed.

End Projections.

(** ** 200 responses: the sort option *)

Section Sort_option.

Variable requests_get : string -> list (string * value) -> result Response.
Variable ids : list string.
Variable res : Response.

Hypothesis Hget :
  requests_get _main_api_path [("ids", VStr (String.concat "," ids))] = Ok res.
Hypothesis Hstatus : status_code res = 200.

(** After a 200 response only the branch on [sort_by] remains. *)
Lemma get_multiple_artists_data_200 (sort_by : string) :
  get_multiple_artists_data requests_get ids sort_by
  = (results <-
       (if String.eqb sort_by "default" then
          artists <- (j <- json res ;; getitem j "artists") ;;
          Ok (Some artists)
        else if String.eqb sort_by "name" then
          artist_list <- (j <- json res ;; getitem j "artists") ;;
          if truthy artist_list then
            s <- sorted artist_list
                   [("key", AFun (fun item => getitem item "name"))] ;;
            Ok (Some s)
          else Ok None
        else if String.eqb sort_by "popularity" then
          artist_list <- (j <- json res ;; getitem j "artists") ;;
          if truthy artist_list then
            s <- sorted artist_list
                   [("key", AFun (fun item => getitem item "popularity"));
                    ("reversed", AVal (VBool true))] ;;
            Ok (Some s)
          else Ok None
        else Raise (SpotifyClientException "Improper value of sort_by")) ;;
     match results with
     | Some r => Ok r
     | None => Raise (UnboundLocalError "results")
     end).
Proof.
  unfold get_multiple_artists_data. cbv zeta.
  rewrite Hget. cbn [bind]. rewrite (status_ok _ Hstatus). reflexivity.
Qed.

(** [sort_by='default'] returns the [artists] entry as received. *)
Lemma sort_by_default (artists : value) :
  (j <- json res ;; getitem j "artists") = Ok artists ->
  get_multiple_artists_data requests_get ids "default" = Ok artists.
Proof.
  intros H. rewrite get_multiple_artists_data_200. simpl String.eqb. cbv iota.
  rewrite H. reflexivity.
Qed.

(** With [sort_by='popularity'] and a true [artists] entry, [sorted] is
    called with the keyword [reversed], which it does not have. *)
Lemma sort_by_popularity_type_error (artist_list : value) :
  (j <- json res ;; getitem j "artists") = Ok artist_list ->
  truthy artist_list = true ->
  get_multiple_artists_data requests_get ids "popularity" = Raise TypeError.
Proof.
  intros H Ht. rewrite get_multiple_artists_data_200. simpl String.eqb. cbv iota.
  rewrite H. cbn [bind]. rewrite Ht.
  rewrite sorted_unknown_keyword; reflexivity.
Qed.

(** With [sort_by='name'] or ['popularity'] and a false [artists] entry
    (the empty list), [results] is never assigned. *)
Lemma sort_by_unbound (sort_by : string) (artist_list : value) :
  sort_by = "name" \/ sort_by = "popularity" ->
  (j <- json res ;; getitem j "artists") = Ok artist_list ->
  truthy artist_list = false ->
  get_multiple_artists_data requests_get ids sort_by
  = Raise (UnboundLocalError "results").
Proof.
  intros Hs H Ht. rewrite get_multiple_artists_data_200.
  destruct Hs as [-> | ->]; simpl String.eqb; cbv iota;
    rewrite H; cbn [bind]; rewrite Ht; reflexivity.
Qed.

(** No value of [sort_by] makes the popularity branch return. *)
Lemma sort_by_popularity_never_returns :
  ~ succeeds (get_multiple_artists_data requests_get ids "popularity").
Proof.
  intros [v Hv].
  destruct (j <- json res ;; getitem j "artists") as [a|e] eqn:E.
  - destruct (truthy a) eqn:Ht.
    + rewrite (sort_by_popularity_type_error a E Ht) in Hv. discriminate.
    + rewrite (sort_by_unbound "popularity" a (or_intror eq_refl) E Ht) in Hv.
      discriminate.
  - rewrite get_multiple_artists_data_200 in Hv. simpl String.eqb in Hv.
    cbv iota in Hv. rewrite E in Hv. discriminate.
Qed.

(** A recognised [sort_by] never raises the client's own exception. *)
Lemma recognised_no_client_error (sort_by : string) (e : exn) :
  sort_by ∈ sort_options ->
  get_multiple_artists_data requests_get ids sort_by = Raise e ->
  is_client_error e = false.
Proof.
  intros Hin. rewrite get_multiple_artists_data_200.
  apply sort_by_recognised in Hin as [-> | [-> | ->]];
    simpl String.eqb; cbv iota;
    (destruct (j <- json res ;; getitem j "artists") as [a|e1] eqn:E; cbn [bind];
     [| intros [= <-]; eapply artists_raises, E]).
  - intros [=].
  - destruct (truthy a); [| intros [= <-]; reflexivity].
    destruct (sorted a _) as [s|e2] eqn:E2; cbn [bind]; intros [=]. subst.
    eapply sorted_by_field_raises, E2.
  - destruct (truthy a); [| intros [= <-]; reflexivity].
    rewrite sorted_unknown_keyword by reflexivity.
    intros [= <-]. reflexivity.
Qed.

(** C9 (amended): after a 200 response an unrecognised [sort_by] raises
    [SpotifyClientException] with the sort-option message, before the body
    is read, and the client's exception is raised for no other value:
    it is raised if and only if [sort_by] is unrecognised. *)
Theorem client_error_iff_unrecognised (sort_by : string) :
  (sort_by ∉ sort_options ->
   get_multiple_artists_data requests_get ids sort_by
   = Raise (SpotifyClientException msg_sort_by)) /\
  (raises_client_error (get_multiple_artists_data requests_get ids sort_by)
   <-> sort_by ∉ sort_options).
Proof.
  assert (sort_by ∉ sort_options ->
          get_multiple_artists_data requests_get ids sort_by
          = Raise (SpotifyClientException msg_sort_by)) as Hbogus.
  { intros Hn. apply sort_by_unrecognised in Hn as (H1 & H2 & H3).
    rewrite get_multiple_artists_data_200, H1, H2, H3. reflexivity. }
  split; [exact Hbogus|]. split.
  - intros [message Hm] Hin.
    apply (recognised_no_client_error _ _ Hin) in Hm. discriminate.
  - intros Hn. exists msg_sort_by. apply Hbogus, Hn.
Qed.

End Sort_option.

(** ** Sorting by name *)

Section String_order.

Lemma ascii_compare_refl (a : ascii) : Ascii.compare a a = Eq.
Proof. apply N.compare_refl. Qed.

Lemma ascii_lt_trans (a b c : ascii) :
  Ascii.compare a b = Lt -> Ascii.compare b c = Lt -> Ascii.compare a c = Lt.
Proof.
  unfold Ascii.compare. rewrite !N.compare_lt_iff. apply N.lt_trans.
Qed.

Lemma string_lt_trans (s t u : string) :
  String.compare s t = Lt -> String.compare t u = Lt -> String.compare s u = Lt.
Proof.
  revert t u. induction s as [|a s IH]; intros [|b t] [|c u]; simpl;
    try congruence.
  destruct (Ascii.compare a b) eqn:Eab; destruct (Ascii.compare b c) eqn:Ebc;
    try congruence.
  - apply Ascii.compare_eq_iff in Eab, Ebc. subst.
    rewrite ascii_compare_refl. apply IH.
  - apply Ascii.compare_eq_iff in Eab. subst. rewrite Ebc. reflexivity.
  - apply Ascii.compare_eq_iff in Ebc. subst. rewrite Eab. reflexivity.
  - rewrite (ascii_lt_trans _ _ _ Eab Ebc). reflexivity.
Qed.

Lemma string_leb_trans (s t u : string) :
  String.leb s t = true -> String.leb t u = true -> String.leb s u = true.
Proof.
  unfold String.leb.
  destruct (String.compare s t) eqn:Est; try discriminate;
    destruct (String.compare t u) eqn:Etu; try discriminate; intros _ _.
  - apply String.compare_eq_iff in Est. subst. rewrite Etu. reflexivity.
  - apply String.compare_eq_iff in Est. subst. rewrite Etu. reflexivity.
  - apply String.compare_eq_iff in Etu. subst. rewrite Est. reflexivity.
  - rewrite (string_lt_trans _ _ _ Est Etu). reflexivity.
Qed.

Lemma string_ltb_leb (s t : string) :
  String.ltb s t = true -> String.leb s t = true.
Proof. unfold String.ltb, String.leb. destruct (String.compare s t); congruence. Qed.

Lemma string_not_ltb_leb (s t : string) :
  String.ltb t s = false -> String.leb s t = true.
Proof.
  unfold String.ltb, String.leb. rewrite (String.compare_antisym s t).
  destruct (String.compare t s); simpl; congruence.
Qed.

End String_order.

Lemma name_le_trans (a b c : value) : name_le a b -> name_le b c -> name_le a c.
Proof.
  unfold name_le.
  destruct (name_of a), (name_of b), (name_of c); try tauto.
  apply string_leb_trans.
Qed.

Section Insertion_sort.

Lemma keyed_lt (p q : value * value) :
  keyed p -> keyed q ->
  exists b, py_lt p.1 q.1 = Ok b /\
            (if b then pair_le p q else pair_le q p).
Proof.
  intros (s & Hs & Hns) (t & Ht & Hnt). rewrite Hs, Ht. simpl.
  exists (String.ltb s t). split; [reflexivity|].
  unfold pair_le, name_le. rewrite Hns, Hnt.
  destruct (String.ltb s t) eqn:E.
  - apply string_ltb_leb, E.
  - apply string_not_ltb_leb, E.
Qed.

Lemma insort_sorted (x : value * value) (l : list (value * value)) :
  keyed x -> Forall keyed l -> StronglySorted pair_le l ->
  exists l', insort x l = Ok l' /\ Permutation (x :: l) l' /\
             StronglySorted pair_le l'.
Proof.
  intros Hx Hl Hsorted. induction l as [|y l IH]; simpl.
  - exists [x]. repeat split; [reflexivity | repeat constructor].
  - apply Forall_cons in Hl as [Hy Hl].
    apply StronglySorted_inv in Hsorted as [Hsorted Hyl].
    destruct (keyed_lt y x Hy Hx) as (b & Hb & Hle). rewrite Hb. cbn [bind].
    destruct b.
    + destruct (IH Hl Hsorted) as (l' & Hins & Hperm & Hs').
      rewrite Hins. cbn [bind]. exists (y :: l'). repeat split.
      * rewrite perm_swap. constructor. exact Hperm.
      * constructor; [exact Hs'|].
        rewrite <- Hperm. constructor; assumption.
    + exists (x :: y :: l). repeat split; [reflexivity|].
      constructor; [constructor; assumption|].
      constructor; [exact Hle|].
      eapply Forall_impl; [exact Hyl|].
      intros z Hz. eapply name_le_trans; [exact Hle | exact Hz].
Qed.

Lemma isort_sorted (l : list (value * value)) :
  Forall keyed l ->
  exists l', isort l = Ok l' /\ Permutation l l' /\ StronglySorted pair_le l'.
Proof.
  induction l as [|x l IH]; intros Hl; simpl.
  - exists []. repeat split; [reflexivity | constructor].
  - apply Forall_cons in Hl as [Hx Hl].
    destruct (IH Hl) as (s & Hs & Hperm & Hsorted). rewrite Hs. cbn [bind].
    destruct (insort_sorted x s Hx) as (l' & Hins & Hperm' & Hsorted');
      [rewrite <- Hperm; exact Hl | exact Hsorted |].
    exists l'. repeat split; [exact Hins | | exact Hsorted'].
    rewrite <- Hperm'. constructor. exact Hperm.
Qed.

Lemma pair_le_items (l : list (value * value)) :
  StronglySorted pair_le l -> StronglySorted name_le l.*2.
Proof.
  induction 1 as [|p l _ IH Hp]; simpl; constructor; [exact IH|].
  apply Forall_fmap. exact Hp.
Qed.

(** The keys of items that all have a name. *)
Lemma name_keys (l : list value) :
  Forall (fun item => is_Some (name_of item)) l ->
  exists keys, mapM (fun item => getitem item "name") l = Ok keys /\
               List.length keys = List.length l /\
               Forall keyed (zip keys l).
Proof.
  induction 1 as [|item l [s Hs] _ (keys & Hkeys & Hlen & Hkeyed)]; simpl.
  - exists []. repeat split; constructor.
  - unfold name_of in Hs.
    destruct (getitem item "name") as [[| | |s'| |]|] eqn:E; try discriminate.
    injection Hs as ->. rewrite Hkeys. cbn [bind].
    exists (VStr s :: keys). repeat split; simpl; [congruence|].
    constructor; [|exact Hkeyed].
    exists s. split; [reflexivity|]. unfold name_of. simpl. rewrite E. reflexivity.
Qed.

(** [sorted] by name on items that all have one. *)
Lemma sorted_by_name (l : list value) :
  Forall (fun item => is_Some (name_of item)) l ->
  exists l', sorted (VList l) [("key", AFun (fun item => getitem item "name"))]
             = Ok (VList l') /\
             Permutation l l' /\ StronglySorted name_le l'.
Proof.
  intros Hl. rewrite sorted_by_field. cbn [iter bind].
  destruct (name_keys l Hl) as (keys & Hkeys & Hlen & Hkeyed).
  rewrite Hkeys. cbn [bind].
  destruct (isort_sorted _ Hkeyed) as (s & Hs & Hperm & Hsorted).
  rewrite Hs. cbn [bind]. exists (s.*2). repeat split.
  - rewrite <- Hperm. rewrite snd_zip; [reflexivity|].
    apply Nat.eq_le_incl. symmetry. exact Hlen.
  - apply pair_le_items, Hsorted.
Qed.

End Insertion_sort.

Section Sort_by_name.

Variable requests_get : string -> list (string * value) -> result Response.

(** C3: on a 200 response whose [artists] array is not empty and whose
    artists all carry a string [name], [sort_by='name'] returns the
    artists rearranged (a permutation of the array) so that names never
    decrease along the result. *)
Theorem get_multiple_artists_data_sorted_by_name (ids : list string)
    (res : Response) (j : value) (artists : list value) :
  requests_get _main_api_path [("ids", VStr (String.concat "," ids))] = Ok res ->
  status_code res = 200 ->
  json res = Ok j ->
  getitem j "artists" = Ok (VList artists) ->
  artists <> [] ->
  Forall (fun item => is_Some (name_of item)) artists ->
  exists sorted_artists,
    get_multiple_artists_data requests_get ids "name" = Ok (VList sorted_artists) /\
    Permutation artists sorted_artists /\
    StronglySorted name_le sorted_artists.
Proof.
  intros Hget Hs Hj Ha Hne Hnames.
  rewrite (get_multiple_artists_data_200 _ _ _ Hget Hs).
  simpl String.eqb. cbv iota. rewrite Hj. cbn [bind]. rewrite Ha. cbn [bind].
  destruct artists as [|a l]; [contradiction|]. cbn [truthy].
  destruct (sorted_by_name (a :: l) Hnames) as (l' & Hsorted & Hperm & Hord).
  rewrite Hsorted. cbn [bind]. exists l'. auto.
Qed.

End Sort_by_name.

Section Sort_by_popularity.

Variable requests_get : string -> list (string * value) -> result Response.

(** C5 (amended): on a 200 response whose [artists] array is not empty,
    the popularity path does not return: [sorted] rejects the keyword
    [reversed] and the call ends in a [TypeError], which is not the
    client's exception. *)
Theorem sort_by_popularity_raises_type_error (ids : list string)
    (res : Response) (j : value) (artists : list value) :
  requests_get _main_api_path [("ids", VStr (String.concat "," ids))] = Ok res ->
  status_code res = 200 ->
  json res = Ok j ->
  getitem j "artists" = Ok (VList artists) ->
  artists <> [] ->
  get_multiple_artists_data requests_get ids "popularity" = Raise TypeError.
Proof.
  intros Hget Hs Hj Ha Hne.
  apply (sort_by_popularity_type_error _ _ _ Hget Hs (VList artists)).
  - rewrite Hj. exact Ha.
  - destruct artists; [contradiction | reflexivity].
Qed.

End Sort_by_popularity.

(** ** The operations on sample responses *)

Lemma artists_body_artists (l : list value) :
  getitem (artists_body l) "artists" = Ok (VList l).
Proof. unfold artists_body. simpl. rewrite lookup_insert_eq. reflexivity. Qed.

Lemma artist_name (name : string) (popularity : Z) :
  name_of (artist name popularity) = Some name.
Proof. unfold name_of, artist. simpl. rewrite lookup_insert_eq. reflexivity. Qed.

Example sort_by_name_three :
  get_multiple_artists_data
    (serve (ok_response (artists_body [artist "b" 10; artist "a" 90; artist "ab" 3])))
    ["x"; "y"; "z"] "name"
  = Ok (VList [artist "a" 90; artist "ab" 3; artist "b" 10]).
Proof. vm_compute. reflexivity. Qed.

Example sort_by_name_is_stable :
  get_multiple_artists_data
    (serve (ok_response (artists_body [artist "b" 1; artist "a" 2; artist "a" 3; artist "b" 4])))
    ["w"; "x"; "y"; "z"] "name"
  = Ok (VList [artist "a" 2; artist "a" 3; artist "b" 1; artist "b" 4]).
Proof. vm_compute. reflexivity. Qed.

Example sort_by_default_as_received :
  get_multiple_artists_data (serve (ok_response (artists_body two_artists)))
    ["x"; "y"] "default"
  = Ok (VList two_artists).
Proof. vm_compute. reflexivity. Qed.

Example sorted_reverse_is_stable :
  sorted (VList [VInt 3; VBool true; VInt 2; VInt 1]) [("reverse", AVal (VBool true))]
  = Ok (VList [VInt 3; VInt 2; VBool true; VInt 1]).
Proof. vm_compute. reflexivity. Qed.

Example sorted_lists :
  sorted (VList [VList [VInt 3]; VList [VBool true; VInt 2]; VList [VInt 1]]) []
  = Ok (VList [VList [VInt 1]; VList [VBool true; VInt 2]; VList [VInt 3]]).
Proof. vm_compute. reflexivity. Qed.

Example sorted_mixed_keys :
  sorted (VList [VInt 3; VStr "a"]) [] = Raise TypeError.
Proof. vm_compute. reflexivity. Qed.

Example py_eq_dicts :
  py_eq (artist "a" 1) (artist "a" 1) = true /\
  py_eq (artist "a" 1) (artist "a" 2) = false /\
  py_eq (artist "a" 1) (artists_body []) = false.
Proof. vm_compute. auto. Qed.

(** C2: the scenario of the two artists with popularity 10 and 90.  The
    call does not return the 90 entry before the 10 entry; it raises
    [TypeError], because [sorted] has no keyword [reversed]. *)
Theorem sort_by_popularity_10_90 :
  get_multiple_artists_data (serve (ok_response (artists_body two_artists)))
    ["a"; "b"] "popularity"
  = Raise TypeError.
Proof. vm_compute. reflexivity. Qed.

(** C4: an empty [artists] array with [sort_by='name'].  The guard
    [if artist_list:] skips the assignment of [results], and the return
    raises [UnboundLocalError]; the default path returns the empty list on
    the same response. *)
Theorem sort_by_name_empty_unbound :
  get_multiple_artists_data (serve (ok_response (artists_body []))) ["a"] "name"
  = Raise (UnboundLocalError "results") /\
  get_multiple_artists_data (serve (ok_response (artists_body []))) ["a"] "default"
  = Ok (VList []).
Proof. split; vm_compute; reflexivity. Qed.

(** C5, as first stated, fails: on two artists with popularity 90 and 10
    the popularity path returns nothing, so not the ascending list. *)
Lemma sort_by_popularity_not_ascending :
  ~ succeeds
      (get_multiple_artists_data
         (serve (ok_response (artists_body [artist "Abba" 90; artist "Queen" 10])))
         ["a"; "b"] "popularity") /\
  get_multiple_artists_data
    (serve (ok_response (artists_body [artist "Abba" 90; artist "Queen" 10])))
    ["a"; "b"] "popularity"
  <> Ok (VList [artist "Queen" 10; artist "Abba" 90]).
Proof.
  assert (get_multiple_artists_data
            (serve (ok_response (artists_body [artist "Abba" 90; artist "Queen" 10])))
            ["a"; "b"] "popularity" = Raise TypeError) as E
    by (vm_compute; reflexivity).
  rewrite E. split; [intros [v Hv]; discriminate Hv | discriminate].
Qed.

(** C9, as first stated, fails: ['popularity'] is a recognised value, yet
    on a well-formed 200 response the call raises and does not succeed, so
    raising does not coincide with being unrecognised, nor succeeding with
    being recognised.  ['default'] raises too, with [KeyError], when the
    body of the 200 response has no [artists] entry. *)
Lemma recognised_sort_by_raises :
  ~ (raises (get_multiple_artists_data
               (serve (ok_response (artists_body two_artists)))
               ["a"; "b"] "popularity")
     <-> "popularity" ∉ sort_options) /\
  ~ (succeeds (get_multiple_artists_data
                 (serve (ok_response (artists_body two_artists)))
                 ["a"; "b"] "popularity")
     <-> "popularity" ∈ sort_options) /\
  ~ (raises (get_multiple_artists_data (serve (ok_response (VDict ∅)))
               ["a"; "b"] "default")
     <-> "default" ∉ sort_options).
Proof.
  assert (get_multiple_artists_data
            (serve (ok_response (artists_body two_artists)))
            ["a"; "b"] "popularity" = Raise TypeError) as E
    by (vm_compute; reflexivity).
  assert (get_multiple_artists_data (serve (ok_response (VDict ∅)))
            ["a"; "b"] "default" = Raise (KeyError "artists")) as E'
    by (vm_compute; reflexivity).
  assert ("popularity" ∈ sort_options) as Hin
    by (unfold sort_options; rewrite !elem_of_cons; tauto).
  assert ("default" ∈ sort_options) as Hin'
    by (unfold sort_options; rewrite !elem_of_cons; tauto).
  rewrite E, E'. split; [|split].
  - intros [H _]. apply H; [exists TypeError; reflexivity | exact Hin].
  - intros [_ H]. destruct (H Hin) as [v Hv]. discriminate Hv.
  - intros [H _]. apply H; [eexists; reflexivity | exact Hin'].
Qed.

(** ** The theorems at sample responses *)

Lemma non_200_raises_client_error_witness :
  status_code not_found <> 200 /\
  get_artist_data (serve not_found) "bad-id"
  = Raise (SpotifyClientException msg_unavailable) /\
  get_multiple_artists_data (serve not_found) ["a"; "b"] "bogus"
  = Raise (SpotifyClientException msg_unavailable) /\
  get_artist_albums_titles (serve not_found) "bad-id" 10
  = Raise (SpotifyClientException msg_unavailable) /\
  get_best_songs (serve not_found) "bad-id" "PL"
  = Raise (SpotifyClientException
             "Improper client id or country code or service unavailable").
Proof.
  assert (status_code not_found <> 200) as H by (simpl; discriminate).
  destruct (non_200_raises_client_error (serve not_found) not_found H)
    as (H1 & H2 & H3 & H4).
  split; [exact H|].
  split; [apply H1; reflexivity|].
  split; [apply H2; reflexivity|].
  split; [apply H3; reflexivity | apply H4; reflexivity].
Defined.

Lemma status_check_precedes_sort_by_witness :
  (status_code not_found <> 200 /\
   get_multiple_artists_data (serve not_found) ["a"; "b"] "bogus"
   = Raise (SpotifyClientException msg_unavailable)) /\
  (get_multiple_artists_data (serve (ok_response VNone)) ["a"; "b"] "bogus"
   = Raise (SpotifyClientException msg_sort_by) /\
   status_code (ok_response VNone) = 200).
Proof.
  split.
  - assert (status_code not_found <> 200) as H by (simpl; discriminate).
    split; [exact H|].
    apply (status_check_precedes_sort_by (serve not_found) ["a"; "b"] "bogus"
             not_found eq_refl), H.
  - assert (get_multiple_artists_data (serve (ok_response VNone)) ["a"; "b"] "bogus"
            = Raise (SpotifyClientException msg_sort_by)) as H by reflexivity.
    split; [exact H|].
    apply (status_check_precedes_sort_by (serve (ok_response VNone)) ["a"; "b"]
             "bogus" (ok_response VNone) eq_refl), H.
Defined.

Lemma get_artist_data_identity_witness :
  status_code (ok_response guns_n_roses) = 200 /\
  get_artist_data (serve (ok_response guns_n_roses)) "3qm84nBOXUEQ2vnTfUTTFC"
  = Ok guns_n_roses.
Proof.
  split; [reflexivity|].
  apply (get_artist_data_identity (serve (ok_response guns_n_roses))
           "3qm84nBOXUEQ2vnTfUTTFC" (ok_response guns_n_roses) guns_n_roses);
    reflexivity.
Defined.

Lemma album_titles_in_server_order_witness :
  status_code (ok_response (albums_body [album "Lies"; album "Appetite"; album "Use"]))
  = 200 /\
  get_artist_albums_titles
    (serve (ok_response (albums_body [album "Lies"; album "Appetite"; album "Use"])))
    "3qm84nBOXUEQ2vnTfUTTFC" 2
  = Ok (VList [VStr "Lies"; VStr "Appetite"; VStr "Use"]).
Proof.
  split; [reflexivity|].
  apply (album_titles_in_server_order
           (serve (ok_response (albums_body [album "Lies"; album "Appetite"; album "Use"])))
           "3qm84nBOXUEQ2vnTfUTTFC" 2
           (ok_response (albums_body [album "Lies"; album "Appetite"; album "Use"]))
           (albums_body [album "Lies"; album "Appetite"; album "Use"])
           [album "Lies"; album "Appetite"; album "Use"]
           ["Lies"; "Appetite"; "Use"] eq_refl eq_refl eq_refl eq_refl).
  repeat constructor.
Defined.

Lemma best_songs_in_server_order_witness :
  status_code (ok_response (tracks_body [track "Patience" 70; track "Paradise City" 81]))
  = 200 /\
  get_best_songs
    (serve (ok_response (tracks_body [track "Patience" 70; track "Paradise City" 81])))
    "3qm84nBOXUEQ2vnTfUTTFC" "PL"
  = Ok (VList [VList [VStr "Patience"; VInt 70];
               VList [VStr "Paradise City"; VInt 81]]).
Proof.
  split; [reflexivity|].
  apply (best_songs_in_server_order
           (serve (ok_response (tracks_body [track "Patience" 70; track "Paradise City" 81])))
           "3qm84nBOXUEQ2vnTfUTTFC" "PL"
           (ok_response (tracks_body [track "Patience" 70; track "Paradise City" 81]))
           (tracks_body [track "Patience" 70; track "Paradise City" 81])
           [track "Patience" 70; track "Paradise City" 81]
           [(VStr "Patience", VInt 70); (VStr "Paradise City", VInt 81)]
           eq_refl eq_refl eq_refl eq_refl).
  repeat constructor.
Defined.

Lemma client_error_iff_unrecognised_witness :
  status_code (ok_response VNone) = 200 /\
("bogus" ∉ sort_options) /\
  get_multiple_artists_data (serve (ok_response VNone)) ["a"; "b"] "bogus"
  = Raise (SpotifyClientException msg_sort_by).
Proof.
  assert ("bogus" ∉ sort_options) as Hn.
  { intros H. apply sort_by_recognised in H as [H | [H | H]]; discriminate H. }
  split; [reflexivity|]. split; [exact Hn|].
  apply (client_error_iff_unrecognised (serve (ok_response VNone)) ["a"; "b"]
           (ok_response VNone) eq_refl eq_refl "bogus"), Hn.
Defined.

Lemma get_multiple_artists_data_sorted_by_name_witness :
  status_code (ok_response (artists_body two_artists)) = 200 /\
  two_artists <> [] /\
  Forall (fun item => is_Some (name_of item)) two_artists /\
  exists sorted_artists,
    get_multiple_artists_data (serve (ok_response (artists_body two_artists)))
      ["a"; "b"] "name" = Ok (VList sorted_artists) /\
    Permutation two_artists sorted_artists /\
    StronglySorted name_le sorted_artists.
Proof.
  assert (Forall (fun item => is_Some (name_of item)) two_artists) as Hnames.
  { repeat constructor; rewrite artist_name; eexists; reflexivity. }
  assert (two_artists <> []) as Hne by discriminate.
  split; [reflexivity|]. split; [exact Hne|]. split; [exact Hnames|].
  apply (get_multiple_artists_data_sorted_by_name
           (serve (ok_response (artists_body two_artists))) ["a"; "b"]
           (ok_response (artists_body two_artists)) (artists_body two_artists)
           two_artists eq_refl eq_refl eq_refl (artists_body_artists two_artists)
           Hne Hnames).
Defined.

Lemma sort_by_popularity_raises_type_error_witness :
  status_code (ok_response (artists_body two_artists)) = 200 /\
  two_artists <> [] /\
  get_multiple_artists_data (serve (ok_response (artists_body two_artists)))
    ["a"; "b"] "popularity" = Raise TypeError.
Proof.
  assert (two_artists <> []) as Hne by discriminate.
  split; [reflexivity|]. split; [exact Hne|].
  apply (sort_by_popularity_raises_type_error
           (serve (ok_response (artists_body two_artists))) ["a"; "b"]
           (ok_response (artists_body two_artists)) (artists_body two_artists)
           two_artists eq_refl eq_refl eq_refl (artists_body_artists two_artists)
           Hne).
Defined.

(** ** Further properties of the client *)

Lemma mapM_first_failure {A B : Type} (f : A -> result B)
    (pre : list A) (bad : A) (post : list A) (e : exn) :
  Forall (fun x => exists y, f x = Ok y) pre ->
  f bad = Raise e ->
  mapM f (pre ++ bad :: post) = Raise e.
Proof.
  intros Hpre Hbad. induction Hpre as [|x pre [y Hy] _ IH]; simpl.
  - rewrite Hbad. reflexivity.
  - rewrite Hy, IH. reflexivity.
Qed.

Lemma bind_no_client_error {A B : Type} (m : result A) (k : A -> result B) (e : exn) :
  (forall e', m = Raise e' -> is_client_error e' = false) ->
  (forall a e', k a = Raise e' -> is_client_error e' = false) ->
  (x <- m ;; k x) = Raise e -> is_client_error e = false.
Proof.
  intros Hm Hk. destruct m as [a|e']; simpl.
  - apply Hk.
  - intros [= <-]. apply Hm. reflexivity.
Qed.

Lemma getitem_no_client_error (v : value) (k : string) (e : exn) :
  getitem v k = Raise e -> is_client_error e = false.
Proof. intros H. apply getitem_raises in H as [-> | ->]; reflexivity. Qed.

Lemma string_ltb_irrefl (s : string) : String.ltb s s = false.
Proof.
  unfold String.ltb. pose proof (String.compare_antisym s s) as H.
  destruct (String.compare s s); simpl in H; congruence.
Qed.

Section Stability.

Variable s : string.

Local Abbreviation named_pair := (fun p : value * value => name_of p.2 = Some s).

Lemma insort_named (x : value * value) (l l' : list (value * value)) :
  keyed x -> Forall keyed l -> insort x l = Ok l' ->
  filter named_pair l' = filter named_pair (x :: l).
Proof.
  intros (sx & Hx1 & Hx2) Hl. revert l'.
  induction l as [|y l IH]; simpl; intros l' H.
  - injection H as <-. reflexivity.
  - apply Forall_cons in Hl as [(sy & Hy1 & Hy2) Hl].
    rewrite Hy1, Hx1 in H. simpl in H.
    destruct (String.ltb sy sx) eqn:E.
    + destruct (insort x l) as [r|] eqn:Er; simpl in H; [|discriminate].
      injection H as <-. specialize (IH Hl r eq_refl).
      rewrite (filter_cons _ y r), IH, !filter_cons.
      destruct (decide (name_of x.2 = Some s)) as [Px|],
        (decide (name_of y.2 = Some s)) as [Py|];
        try reflexivity.
      rewrite Hx2 in Px. rewrite Hy2 in Py.
      injection Px as ->. injection Py as ->.
      rewrite string_ltb_irrefl in E. discriminate.
    + injection H as <-. reflexivity.
Qed.

Lemma isort_named (l l' : list (value * value)) :
  Forall keyed l -> isort l = Ok l' ->
  filter named_pair l' = filter named_pair l.
Proof.
  revert l'. induction l as [|x l IH]; simpl; intros l' Hl H.
  - injection H as <-. reflexivity.
  - apply Forall_cons in Hl as [Hx Hl].
    destruct (isort_sorted l Hl) as (r & Hr & Hperm & _).
    rewrite Hr in H. simpl in H.
    rewrite (insort_named x r l' Hx) by first [exact H | rewrite <- Hperm; exact Hl].
    rewrite !filter_cons, (IH r Hl Hr). reflexivity.
Qed.

Lemma named_items (l : list (value * value)) :
  named s l.*2 = (filter named_pair l).*2.
Proof.
  unfold named. induction l as [|p l IH]; [reflexivity|].
  rewrite fmap_cons, !filter_cons.
  destruct (decide (name_of p.2 = Some s)); rewrite IH; reflexivity.
Qed.

Lemma sorted_by_name_named (l : list value) :
  Forall (fun item => is_Some (name_of item)) l ->
  exists l', sorted (VList l) [("key", AFun (fun item => getitem item "name"))]
             = Ok (VList l') /\
             named s l' = named s l.
Proof.
  intros Hl. rewrite sorted_by_field. cbn [iter bind].
  destruct (name_keys l Hl) as (keys & Hkeys & Hlen & Hkeyed).
  rewrite Hkeys. cbn [bind].
  destruct (isort_sorted _ Hkeyed) as (r & Hr & _ & _).
  rewrite Hr. cbn [bind]. exists (r.*2). split; [reflexivity|].
  rewrite named_items, (isort_named _ r Hkeyed Hr), <- named_items.
  rewrite snd_zip; [reflexivity|].
  apply Nat.eq_le_incl. symmetry. exact Hlen.
Qed.

End Stability.

Section More_on_sorting.

Variable requests_get : string -> list (string * value) -> result Response.

(** X1: sorting by name is stable.  On a 200 response whose artists all
    carry a string [name], the artists that share a name come out in the
    order in which the server sent them. *)
Theorem sort_by_name_stable (ids : list string) (res : Response) (j : value)
    (artists : list value) (s : string) :
  requests_get _main_api_path [("ids", VStr (String.concat "," ids))] = Ok res ->
  status_code res = 200 ->
  json res = Ok j ->
  getitem j "artists" = Ok (VList artists) ->
  artists <> [] ->
  Forall (fun item => is_Some (name_of item)) artists ->
  exists sorted_artists,
    get_multiple_artists_data requests_get ids "name" = Ok (VList sorted_artists) /\
    named s sorted_artists = named s artists.
Proof.
  intros Hget Hs Hj Ha Hne Hnames.
  rewrite (get_multiple_artists_data_200 _ _ _ Hget Hs).
  simpl String.eqb. cbv iota. rewrite Hj. cbn [bind]. rewrite Ha. cbn [bind].
  destruct artists as [|a l]; [contradiction|]. cbn [truthy].
  destruct (sorted_by_name_named s (a :: l) Hnames) as (l' & Hsorted & Hnamed).
  rewrite Hsorted. cbn [bind]. exists l'. auto.
Qed.

(** X2: one entry without a [name] makes the whole call fail.  When the
    entries before it all have a [name] (of any type), [sort_by='name']
    raises what the subscription of that entry raises, [TypeError] for an
    entry that is no dict (a [null], which the service sends for an id it
    does not know) and [KeyError] for a dict without the key; the
    client's own exception is not raised and no list is returned. *)
Theorem sort_by_name_entry_without_name (ids : list string) (res : Response)
    (j : value) (pre : list value) (bad : value) (post : list value) (e : exn) :
  requests_get _main_api_path [("ids", VStr (String.concat "," ids))] = Ok res ->
  status_code res = 200 ->
  json res = Ok j ->
  getitem j "artists" = Ok (VList (pre ++ bad :: post)) ->
  Forall (fun item => exists name, getitem item "name" = Ok name) pre ->
  getitem bad "name" = Raise e ->
  get_multiple_artists_data requests_get ids "name" = Raise e /\
  (e = TypeError \/ e = KeyError "name").
Proof.
  intros Hget Hs Hj Ha Hpre Hbad. split; [|eapply getitem_raises, Hbad].
  rewrite (get_multiple_artists_data_200 _ _ _ Hget Hs).
  simpl String.eqb. cbv iota. rewrite Hj. cbn [bind]. rewrite Ha. cbn [bind].
  assert (truthy (VList (pre ++ bad :: post)) = true) as ->
    by (destruct pre; reflexivity).
  rewrite sorted_by_field. cbn [iter bind].
  rewrite (mapM_first_failure _ pre bad post e Hpre Hbad). reflexivity.
Qed.

(** X3: [sort_by='popularity'] never returns a value: whatever the
    transport does and whatever the response, the call ends in an
    exception. *)
Theorem sort_by_popularity_never_succeeds (ids : list string) :
  raises (get_multiple_artists_data requests_get ids "popularity").
Proof.
  unfold raises, get_multiple_artists_data. cbv zeta.
  destruct (requests_get _ _) as [res|e]; cbn [bind]; [|eexists; reflexivity].
  destruct (negb (status_code res =? 200)%Z); [eexists; reflexivity|].
  simpl String.eqb. cbv iota.
  destruct (j <- json res ;; getitem j "artists") as [a|e]; cbn [bind];
    [|eexists; reflexivity].
  destruct (truthy a); [rewrite sorted_unknown_keyword by reflexivity|];
    eexists; reflexivity.
Qed.

(** X4: an [artists] entry that tests false (the empty list, but also
    [null], [0], [false], the empty string or dict) leaves [results]
    unassigned on both sorting paths, which end in [UnboundLocalError]. *)
Theorem sorting_paths_unbound_on_false_entry (ids : list string)
    (sort_by : string) (res : Response) (j artist_list : value) :
  requests_get _main_api_path [("ids", VStr (String.concat "," ids))] = Ok res ->
  status_code res = 200 ->
  sort_by = "name" \/ sort_by = "popularity" ->
  json res = Ok j ->
  getitem j "artists" = Ok artist_list ->
  truthy artist_list = false ->
  get_multiple_artists_data requests_get ids sort_by
  = Raise (UnboundLocalError "results").
Proof.
  intros Hget Hs Hsort Hj Ha Ht.
  apply (sort_by_unbound _ _ _ Hget Hs sort_by artist_list Hsort); [|exact Ht].
  rewrite Hj. exact Ha.
Qed.

(** X5: [sort_by='default'] hands over the [artists] entry of the body as
    it is, whatever its type and order, and fails exactly as reading that
    entry fails: [JSONDecodeError] without a JSON body, [KeyError] without
    the key, [TypeError] when the body is no dict. *)
Theorem sort_by_default_as_is (ids : list string) (res : Response) :
  requests_get _main_api_path [("ids", VStr (String.concat "," ids))] = Ok res ->
  status_code res = 200 ->
  get_multiple_artists_data requests_get ids "default"
  = (j <- json res ;; getitem j "artists") /\
  forall e, get_multiple_artists_data requests_get ids "default" = Raise e ->
            e = JSONDecodeError \/ e = KeyError "artists" \/ e = TypeError.
Proof.
  intros Hget Hs.
  assert (get_multiple_artists_data requests_get ids "default"
          = (j <- json res ;; getitem j "artists")) as E.
  { rewrite (get_multiple_artists_data_200 _ _ _ Hget Hs).
    simpl String.eqb. cbv iota.
    destruct (j <- json res ;; getitem j "artists"); reflexivity. }
  split; [exact E|]. intros e. rewrite E.
  destruct (json res) as [j|e'] eqn:Hj; simpl.
  - intros H. apply getitem_raises in H as [-> | ->]; auto.
  - intros [= <-]. apply json_raises in Hj. auto.
Qed.

(** X6: [get_multiple_artists_data] raises the client's own exception in
    two cases only, a status other than 200 or an unrecognised [sort_by];
    every other failure is an exception of the interpreter. *)
Theorem multiple_artists_client_error_iff (ids : list string) (sort_by : string)
    (res : Response) :
  requests_get _main_api_path [("ids", VStr (String.concat "," ids))] = Ok res ->
  (raises_client_error (get_multiple_artists_data requests_get ids sort_by)
   <-> status_code res <> 200 \/ sort_by ∉ sort_options).
Proof.
  intros Hget.
  destruct (Z.eq_dec (status_code res) 200) as [Hs|Hs].
  - split.
    + intros [message Hm]. right. intros Hin.
      apply (recognised_no_client_error _ _ _ Hget Hs _ _ Hin) in Hm. discriminate.
    + intros [Hn | Hn]; [contradiction|].
      exists "Improper value of sort_by".
      apply sort_by_unrecognised in Hn as (H1 & H2 & H3).
      rewrite (get_multiple_artists_data_200 _ _ _ Hget Hs), H1, H2, H3. reflexivity.
  - split; [intros _; left; exact Hs|]. intros _.
    exists "Improper client id or service unavailable".
    unfold get_multiple_artists_data. cbv zeta. rewrite Hget. cbn [bind].
    rewrite (status_not_ok _ Hs). reflexivity.
Qed.

End More_on_sorting.

(** The parts of a projection that can fail, and how. *)
Ltac no_client_error :=
  repeat first
    [ apply bind_no_client_error; [intros ? ? | intros ? ?; cbv beta]
    | match goal with
      | H : json _ = Raise _ |- _ => apply json_raises in H; subst; reflexivity
      | H : getitem _ _ = Raise _ |- _ => exact (getitem_no_client_error _ _ _ H)
      | H : iter _ = Raise _ |- _ => apply iter_raises in H; subst; reflexivity
      | H : mapM _ _ = Raise _ |- _ =>
          revert H; apply (mapM_raises (fun e => is_client_error e = false));
          intros ? ?; cbv beta
      | |- getitem _ _ = Raise _ -> _ => apply getitem_no_client_error
      | |- Ok _ = Raise _ -> _ => intros [=]
      end ].

Section More_on_projections.

Variable requests_get : string -> list (string * value) -> result Response.

(** X7: the three operations on one artist raise the client's own
    exception exactly when the status is not 200; on a 200 response a
    failure is always an exception of the interpreter. *)
Theorem single_artist_client_error_iff (artist_id : string) (res : Response) :
  (requests_get (_main_api_path +:+ "/" +:+ artist_id) [] = Ok res ->
   (raises_client_error (get_artist_data requests_get artist_id)
    <-> status_code res <> 200)) /\
  (forall quantity,
      requests_get (_main_api_path +:+ "/" +:+ artist_id +:+ "/albums")
        [("limit", VInt quantity)] = Ok res ->
      (raises_client_error (get_artist_albums_titles requests_get artist_id quantity)
       <-> status_code res <> 200)) /\
  (forall country,
      requests_get (_main_api_path +:+ "/" +:+ artist_id +:+ "/top-tracks")
        [("country", VStr country)] = Ok res ->
      (raises_client_error (get_best_songs requests_get artist_id country)
       <-> status_code res <> 200)).
Proof.
  split; [|split]; intros;
    unfold get_artist_data, get_artist_albums_titles, get_best_songs; cbv zeta;
    rewrite H; cbn [bind];
    (destruct (Z.eq_dec (status_code res) 200) as [Hs|Hs];
     [ rewrite (status_ok _ Hs); split; [|contradiction];
       intros [message Hm]; exfalso;
       assert (is_client_error (SpotifyClientException message) = false) as F;
       [ revert Hm | discriminate F ]
     | rewrite (status_not_ok _ Hs); split; [intros _; exact Hs|];
       intros _; eexists; reflexivity ]).
  - intros Hm. apply json_raises in Hm. discriminate Hm.
  - no_client_error.
  - no_client_error.
Qed.

(** X8: one album without a [name] makes [get_artist_albums_titles] fail
    with what the subscription of that item raises; the titles of the
    items before it are not returned. *)
Theorem album_without_name (artist_id : string) (quantity : Z) (res : Response)
    (j : value) (pre : list value) (bad : value) (post : list value) (e : exn) :
  requests_get (_main_api_path +:+ "/" +:+ artist_id +:+ "/albums")
    [("limit", VInt quantity)] = Ok res ->
  status_code res = 200 ->
  json res = Ok j ->
  getitem j "items" = Ok (VList (pre ++ bad :: post)) ->
  Forall (fun item => exists name, getitem item "name" = Ok name) pre ->
  getitem bad "name" = Raise e ->
  get_artist_albums_titles requests_get artist_id quantity = Raise e /\
  (e = TypeError \/ e = KeyError "name").
Proof.
  intros Hget Hs Hj Hitems Hpre Hbad. split; [|eapply getitem_raises, Hbad].
  unfold get_artist_albums_titles. cbv zeta.
  rewrite Hget. cbn [bind]. rewrite (status_ok _ Hs), Hj. cbn [bind].
  rewrite Hitems. cbn [bind iter].
  rewrite (mapM_first_failure _ pre bad post e Hpre Hbad). reflexivity.
Qed.

(** X9: a track needs both fields, and [name] is read first.  When the
    tracks before it are complete, a track without [name] makes
    [get_best_songs] fail on [name], and a track with a [name] but without
    [popularity] makes it fail on [popularity]; no pair is returned. *)
Theorem track_without_field (artist_id country : string) (res : Response)
    (j : value) (pre : list value) (bad : value) (post : list value) (e : exn) :
  requests_get (_main_api_path +:+ "/" +:+ artist_id +:+ "/top-tracks")
    [("country", VStr country)] = Ok res ->
  status_code res = 200 ->
  json res = Ok j ->
  getitem j "tracks" = Ok (VList (pre ++ bad :: post)) ->
  Forall (fun item => (exists name, getitem item "name" = Ok name) /\
                      (exists p, getitem item "popularity" = Ok p)) pre ->
  getitem bad "name" = Raise e \/
  ((exists name, getitem bad "name" = Ok name) /\
   getitem bad "popularity" = Raise e) ->
  get_best_songs requests_get artist_id country = Raise e.
Proof.
  intros Hget Hs Hj Htracks Hpre Hbad.
  unfold get_best_songs. cbv zeta.
  rewrite Hget. cbn [bind]. rewrite (status_ok _ Hs), Hj. cbn [bind].
  rewrite Htracks. cbn [bind iter].
  erewrite mapM_first_failure; [reflexivity | |].
  - eapply Forall_impl; [exact Hpre|].
    intros item [[name Hn] [p Hp]]. simpl. rewrite Hn, Hp. eexists. reflexivity.
  - destruct Hbad as [Hn | [[name Hn] Hp]]; rewrite Hn; simpl;
      [|rewrite Hp]; reflexivity.
Qed.

(** X10: a 200 response whose body is not a JSON document ends every
    operation in [JSONDecodeError], for any recognised [sort_by]. *)
Theorem ok_status_without_json (res : Response) :
  status_code res = 200 ->
  body res = None ->
  (forall artist_id,
      requests_get (_main_api_path +:+ "/" +:+ artist_id) [] = Ok res ->
      get_artist_data requests_get artist_id = Raise JSONDecodeError) /\
  (forall ids sort_by,
      requests_get _main_api_path [("ids", VStr (String.concat "," ids))] = Ok res ->
      sort_by ∈ sort_options ->
      get_multiple_artists_data requests_get ids sort_by = Raise JSONDecodeError) /\
  (forall artist_id quantity,
      requests_get (_main_api_path +:+ "/" +:+ artist_id +:+ "/albums")
        [("limit", VInt quantity)] = Ok res ->
      get_artist_albums_titles requests_get artist_id quantity
      = Raise JSONDecodeError) /\
  (forall artist_id country,
      requests_get (_main_api_path +:+ "/" +:+ artist_id +:+ "/top-tracks")
        [("country", VStr country)] = Ok res ->
      get_best_songs requests_get artist_id country = Raise JSONDecodeError).
Proof.
  intros Hs Hb.
  assert (json res = Raise JSONDecodeError) as Hj by (unfold json; rewrite Hb; reflexivity).
  split; [|split; [|split]].
  - intros artist_id Hget. unfold get_artist_data. cbv zeta.
    rewrite Hget. cbn [bind]. rewrite (status_ok _ Hs). exact Hj.
  - intros ids sort_by Hget Hin.
    rewrite (get_multiple_artists_data_200 _ _ _ Hget Hs).
    apply sort_by_recognised in Hin as [-> | [-> | ->]];
      simpl String.eqb; cbv iota; rewrite Hj; reflexivity.
  - intros artist_id quantity Hget. unfold get_artist_albums_titles. cbv zeta.
    rewrite Hget. cbn [bind]. rewrite (status_ok _ Hs), Hj. reflexivity.
  - intros artist_id country Hget. unfold get_best_songs. cbv zeta.
    rewrite Hget. cbn [bind]. rewrite (status_ok _ Hs), Hj. reflexivity.
Qed.

(** X11: a 200 response whose body is a JSON object without the entry an
    operation reads ends in [KeyError] for that entry. *)
Theorem ok_status_without_entry (res : Response) (d : gmap string value) :
  status_code res = 200 ->
  body res = Some (VDict d) ->
  (forall ids sort_by,
      requests_get _main_api_path [("ids", VStr (String.concat "," ids))] = Ok res ->
      sort_by ∈ sort_options ->
      d !! "artists" = None ->
      get_multiple_artists_data requests_get ids sort_by
      = Raise (KeyError "artists")) /\
  (forall artist_id quantity,
      requests_get (_main_api_path +:+ "/" +:+ artist_id +:+ "/albums")
        [("limit", VInt quantity)] = Ok res ->
      d !! "items" = None ->
      get_artist_albums_titles requests_get artist_id quantity
      = Raise (KeyError "items")) /\
  (forall artist_id country,
      requests_get (_main_api_path +:+ "/" +:+ artist_id +:+ "/top-tracks")
        [("country", VStr country)] = Ok res ->
      d !! "tracks" = None ->
      get_best_songs requests_get artist_id country = Raise (KeyError "tracks")).
Proof.
  intros Hs Hb.
  assert (json res = Ok (VDict d)) as Hj by (unfold json; rewrite Hb; reflexivity).
  split; [|split].
  - intros ids sort_by Hget Hin Hd.
    rewrite (get_multiple_artists_data_200 _ _ _ Hget Hs).
    apply sort_by_recognised in Hin as [-> | [-> | ->]];
      simpl String.eqb; cbv iota; rewrite Hj; cbn [bind getitem]; rewrite Hd;
      reflexivity.
  - intros artist_id quantity Hget Hd. unfold get_artist_albums_titles. cbv zeta.
    rewrite Hget. cbn [bind]. rewrite (status_ok _ Hs), Hj.
    cbn [bind getitem]. rewrite Hd. reflexivity.
  - intros artist_id country Hget Hd. unfold get_best_songs. cbv zeta.
    rewrite Hget. cbn [bind]. rewrite (status_ok _ Hs), Hj.
    cbn [bind getitem]. rewrite Hd. reflexivity.
Qed.

End More_on_projections.

(** ** The self-test *)

Lemma py_eq_str (name : value) (s : string) :
  py_eq name (VStr s) = true <-> name = VStr s.
Proof.
  destruct name as [| | |t| |]; simpl; try (split; [discriminate|intros [=]]).
  rewrite String.eqb_eq. split; [intros ->; reflexivity | intros [= ->]; reflexivity].
Qed.

Lemma getitem_truthy (j : value) (k : string) (v : value) :
  getitem j k = Ok v -> truthy j = true.
Proof.
  destruct j as [| | | | |d]; simpl; try discriminate.
  destruct (d !! k) eqn:E; [|discriminate]. intros _.
  apply negb_true_iff, bool_decide_eq_false. intros ->.
  rewrite lookup_empty in E. discriminate.
Qed.

Lemma raise_for_status_ok (resp : Response) (out : stdout) :
  status_code resp < 400 \/ 600 <= status_code resp ->
  raise_for_status resp out = (out, Returned tt).
Proof.
  intros H. unfold raise_for_status.
  destruct (400 <=? status_code resp)%Z eqn:E1;
    destruct (status_code resp <? 600)%Z eqn:E2; try reflexivity.
  apply Z.leb_le in E1. apply Z.ltb_lt in E2. lia.
Qed.

Lemma raise_for_status_error (resp : Response) (out : stdout) :
  400 <= status_code resp < 600 ->
  raise_for_status resp out = (out, Raised HTTPError).
Proof.
  intros [H1 H2]. unfold raise_for_status.
  apply Z.leb_le in H1. apply Z.ltb_lt in H2. rewrite H1, H2. reflexivity.
Qed.

Section Self_test.

Variable session_get : string -> result Response.

(** The self-test after a response whose status passes. *)
Lemma unit_tests_checked (resp : Response) (out : stdout) :
  session_get self_test_url = Ok resp ->
  status_code resp < 400 \/ 600 <= status_code resp ->
  unit_tests session_get out
  = match json resp with
    | Raise e => (out, Raised (Exn e))
    | Ok j =>
        if negb (truthy j) then (out, Raised (Exception "Tests failed"))
        else match getitem j "name" with
             | Raise e => (out, Raised (Exn e))
             | Ok name =>
                 if negb (py_eq name (VStr "Guns N' Roses"))
                 then (out, Raised (Exception "Tests failed"))
                 else (out, Returned tt)
             end
    end.
Proof.
  intros Hget Hs. unfold unit_tests, bind_io, try_except. fold self_test_url.
  rewrite Hget. simpl. rewrite (raise_for_status_ok _ _ Hs).
  destruct (json resp) as [j|e]; simpl; [|reflexivity].
  destruct (truthy j); simpl; [|reflexivity].
  destruct (getitem j "name") as [name|e]; simpl; [|reflexivity].
  destruct (py_eq name _); reflexivity.
Qed.

Lemma unit_tests_http_error (resp : Response) (out : stdout) :
  session_get self_test_url = Ok resp ->
  400 <= status_code resp < 600 ->
  unit_tests session_get out = (out, Raised (Exception "Tests failed")).
Proof.
  intros Hget Hs. unfold unit_tests, bind_io, try_except. fold self_test_url.
  rewrite Hget. simpl. rewrite (raise_for_status_error _ _ Hs). reflexivity.
Qed.

Lemma unit_tests_no_response (e : exn) (out : stdout) :
  session_get self_test_url = Raise e ->
  unit_tests session_get out = (out, Raised (Exn e)).
Proof.
  intros Hget. unfold unit_tests, bind_io. fold self_test_url. rewrite Hget. reflexivity.
Qed.

(** The self-test leaves the output as it found it. *)
Lemma unit_tests_stdout (out out' : stdout) (o : outcome unit) :
  unit_tests session_get out = (out', o) -> out' = out.
Proof.
  intros H. destruct (session_get self_test_url) as [resp|e] eqn:Hget.
  2:{ rewrite (unit_tests_no_response e out Hget) in H. congruence. }
  destruct (Z.lt_ge_cases (status_code resp) 400) as [Hlo|Hlo];
    [|destruct (Z.lt_ge_cases (status_code resp) 600) as [Hhi|Hhi]].
  2:{ rewrite (unit_tests_http_error resp out Hget (conj Hlo Hhi)) in H.
      congruence. }
  all: assert (status_code resp < 400 \/ 600 <= status_code resp) as Hs by lia;
    rewrite (unit_tests_checked resp out Hget Hs) in H;
    destruct (json resp) as [j|]; [|congruence];
    destruct (truthy j); simpl in H; [|congruence];
    destruct (getitem j "name") as [name|]; [|congruence];
    destruct (py_eq name _); simpl in H; congruence.
Qed.

(** X12: the self-test passes exactly when the request is answered with a
    status outside 400..599 and a JSON object whose [name] is the string
    [Guns N' Roses].  The status need not be 200. *)
Theorem unit_tests_passes_iff (out : stdout) :
  unit_tests session_get out = (out, Returned tt)
  <-> exists resp j,
        session_get self_test_url = Ok resp /\
        (status_code resp < 400 \/ 600 <= status_code resp) /\
        json resp = Ok j /\
        getitem j "name" = Ok (VStr "Guns N' Roses").
Proof.
  split.
  - intros H. destruct (session_get self_test_url) as [resp|e] eqn:Hget.
    2:{ rewrite (unit_tests_no_response e out Hget) in H. discriminate. }
    destruct (Z.lt_ge_cases (status_code resp) 400) as [Hlo|Hlo];
      [|destruct (Z.lt_ge_cases (status_code resp) 600) as [Hhi|Hhi]].
    2:{ rewrite (unit_tests_http_error resp out Hget (conj Hlo Hhi)) in H.
        discriminate. }
    all: assert (status_code resp < 400 \/ 600 <= status_code resp) as Hs by lia;
      rewrite (unit_tests_checked resp out Hget Hs) in H;
      destruct (json resp) as [j|] eqn:Hj; [|discriminate];
      destruct (truthy j); simpl in H; [|discriminate];
      destruct (getitem j "name") as [name|] eqn:Hn; [|discriminate];
      destruct (py_eq name _) eqn:Hname; simpl in H; [|discriminate];
      apply py_eq_str in Hname; subst;
      exists resp, j; auto.
  - intros (resp & j & Hget & Hs & Hj & Hn).
    rewrite (unit_tests_checked resp out Hget Hs), Hj.
    rewrite (getitem_truthy _ _ _ Hn), Hn. reflexivity.
Qed.

(** X13: a status from 400 to 599 fails the self-test with the message
    [Tests failed], whatever the body; the [HTTPError] does not get out. *)
Theorem unit_tests_error_status (resp : Response) (out : stdout) :
  session_get self_test_url = Ok resp ->
  400 <= status_code resp < 600 ->
  unit_tests session_get out = (out, Raised (Exception "Tests failed")).
Proof. apply unit_tests_http_error. Qed.

(** X14: the self-test prints nothing, and when it fails it fails with
    [Tests failed], with the exception of the request itself, or with one
    of three exceptions of the interpreter that its checks let through:
    [JSONDecodeError] for a body that is not JSON, [TypeError] for a body
    that is no object, [KeyError] for an object without [name]. *)
Theorem unit_tests_failures (out out' : stdout) (s : signal) :
  unit_tests session_get out = (out', Raised s) ->
  out' = out /\
  (s = Exception "Tests failed" \/
   (exists e, session_get self_test_url = Raise e /\ s = Exn e) \/
   s = Exn JSONDecodeError \/ s = Exn TypeError \/ s = Exn (KeyError "name")).
Proof.
  intros H. pose proof (unit_tests_stdout _ _ _ H) as ->. split; [reflexivity|].
  destruct (session_get self_test_url) as [resp|e] eqn:Hget.
  2:{ rewrite (unit_tests_no_response e out Hget) in H.
      injection H as <-. eauto 6. }
  destruct (Z.lt_ge_cases (status_code resp) 400) as [Hlo|Hlo];
    [|destruct (Z.lt_ge_cases (status_code resp) 600) as [Hhi|Hhi]].
  2:{ rewrite (unit_tests_http_error resp out Hget (conj Hlo Hhi)) in H.
      injection H as <-. auto. }
  all: assert (status_code resp < 400 \/ 600 <= status_code resp) as Hs by lia;
    rewrite (unit_tests_checked resp out Hget Hs) in H;
    destruct (json resp) as [j|e] eqn:Hj;
    [| apply json_raises in Hj; subst; injection H as <-; auto 6 ];
    destruct (truthy j); simpl in H; [|injection H as <-; auto];
    destruct (getitem j "name") as [name|e] eqn:Hn;
    [| apply getitem_raises in Hn as [-> | ->]; injection H as <-; auto 6 ];
    destruct (py_eq name _); simpl in H; [discriminate|];
    injection H as <-; auto.
Qed.

(** X15: the check of the body is uneven.  An empty object fails the
    self-test with [Tests failed]; an object that is not empty and has no
    [name] escapes the check and ends in [KeyError]. *)
Theorem unit_tests_object_without_name (resp : Response) (d : gmap string value)
    (out : stdout) :
  session_get self_test_url = Ok resp ->
  status_code resp < 400 \/ 600 <= status_code resp ->
  json resp = Ok (VDict d) ->
  d !! "name" = None ->
  unit_tests session_get out
  = (out, Raised (if bool_decide (d = ∅) then Exception "Tests failed"
                  else Exn (KeyError "name"))).
Proof.
  intros Hget Hs Hj Hd. rewrite (unit_tests_checked resp out Hget Hs), Hj.
  simpl. rewrite Hd. destruct (bool_decide (d = ∅)); reflexivity.
Qed.

End Self_test.

(** ** The command line *)

Section Command_line.

Variable session_get : string -> result Response.
Variable requests_get : string -> list (string * value) -> result Response.

(** The script once the self-test has passed and the flag is read. *)
Lemma main_after_tests (artist_id : string) (out : stdout) :
  unit_tests session_get out = (out, Returned tt) ->
  main session_get requests_get (Some artist_id) out
  = match get_artist_data requests_get artist_id with
    | Raise e => (out, Raised (Exn e))
    | Ok artist_info =>
        match get_artist_albums_titles requests_get artist_id 10 with
        | Raise e => (out, Raised (Exn e))
        | Ok first_10_album_titles =>
            match get_best_songs requests_get artist_id "PL" with
            | Raise e => (out, Raised (Exn e))
            | Ok most_popular_songs =>
                match getitem artist_info "name" with
                | Raise e => (out, Raised (Exn e))
                | Ok name =>
                    ((out ++ report name first_10_album_titles
                                most_popular_songs)%list,
                     Returned tt)
                end
            end
        end
    end.
Proof.
  intros Ht. unfold main, bind_io at 1. rewrite Ht.
  unfold bind_io at 1. simpl parse_args. unfold ret at 1.
  unfold bind_io.
  destruct (get_artist_data _ _) as [info|]; simpl; [|reflexivity].
  destruct (get_artist_albums_titles _ _ _) as [titles|]; simpl; [|reflexivity].
  destruct (get_best_songs _ _ _) as [songs|]; simpl; [|reflexivity].
  destruct (getitem info "name") as [name|]; simpl; [|reflexivity].
  unfold print, report. rewrite <- !app_assoc. reflexivity.
Qed.


(** X17: the self-test comes first.  When it fails the script ends with
    its exception whether or not the flag is given, and only when it has
    passed does a missing flag end the script, with exit status 2. *)
Theorem main_self_test_first (flag : option string) (out : stdout) :
  (forall s, unit_tests session_get out = (out, Raised s) ->
             main session_get requests_get flag out = (out, Raised s)) /\
  (unit_tests session_get out = (out, Returned tt) ->
   main session_get requests_get None out = (out, Raised (SystemExit 2))).
Proof.
  split; intros; unfold main, bind_io; rewrite H; reflexivity.
Qed.

(** X18: the run from the responses to the report.  After a passed
    self-test, 200 responses for the artist, for the albums with
    [limit=10] and for the top tracks with [country=PL] make the script
    print the artist's name, the names of the items and the pairs of the
    tracks, in the server's order. *)
Theorem main_reports (artist_id : string) (out : stdout)
    (res_artist res_albums res_tracks : Response) (info j_albums j_tracks : value)
    (name : value) (items names tracks : list value) (pairs : list (value * value)) :
  unit_tests session_get out = (out, Returned tt) ->
  requests_get (_main_api_path +:+ "/" +:+ artist_id) [] = Ok res_artist ->
  requests_get (_main_api_path +:+ "/" +:+ artist_id +:+ "/albums")
    [("limit", VInt 10)] = Ok res_albums ->
  requests_get (_main_api_path +:+ "/" +:+ artist_id +:+ "/top-tracks")
    [("country", VStr "PL")] = Ok res_tracks ->
  status_code res_artist = 200 /\ status_code res_albums = 200 /\
  status_code res_tracks = 200 ->
  json res_artist = Ok info /\ getitem info "name" = Ok name ->
  json res_albums = Ok j_albums /\ getitem j_albums "items" = Ok (VList items) /\
  Forall2 (fun item n => getitem item "name" = Ok n) items names ->
  json res_tracks = Ok j_tracks /\ getitem j_tracks "tracks" = Ok (VList tracks) /\
  Forall2 (fun item p => getitem item "name" = Ok p.1 /\
                         getitem item "popularity" = Ok p.2) tracks pairs ->
  main session_get requests_get (Some artist_id) out
  = ((out ++ report name (VList names)
                (VList ((fun p => VList [p.1; p.2]) <$> pairs)))%list,
     Returned tt).
Proof.
  intros Ht Hg1 Hg2 Hg3 (Hs1 & Hs2 & Hs3) (Hj1 & Hn) (Hj2 & Hitems & Hnames)
    (Hj3 & Htracks & Hpairs).
  rewrite (main_after_tests artist_id out Ht).
  assert (get_artist_data requests_get artist_id = Ok info) as ->.
  { unfold get_artist_data. cbv zeta. rewrite Hg1. cbn [bind].
    rewrite (status_ok _ Hs1). exact Hj1. }
  rewrite (album_titles_projection requests_get artist_id 10 res_albums j_albums
             items names Hg2 Hs2 Hj2 Hitems Hnames).
  assert (get_best_songs requests_get artist_id "PL"
          = Ok (VList ((fun p => VList [p.1; p.2]) <$> pairs))) as ->.
  { unfold get_best_songs. cbv zeta. rewrite Hg3. cbn [bind].
    rewrite (status_ok _ Hs3), Hj3. cbn [bind]. rewrite Htracks. cbn [bind iter].
    erewrite mapM_Forall2; [reflexivity|].
    apply Forall2_fmap_r. eapply Forall2_impl; [exact Hpairs|].
    intros item p [H1 H2]. simpl. rewrite H1, H2. reflexivity. }
  rewrite Hn. reflexivity.
Qed.

(** X19: a status other than 200 for the artist ends the script with the
    client's exception before the albums and the tracks are asked for:
    whatever the transport would answer for them, nothing is printed. *)
Theorem main_artist_not_found (artist_id : string) (out : stdout) (res : Response) :
  unit_tests session_get out = (out, Returned tt) ->
  requests_get (_main_api_path +:+ "/" +:+ artist_id) [] = Ok res ->
  status_code res <> 200 ->
  main session_get requests_get (Some artist_id) out
  = (out, Raised (Exn (SpotifyClientException msg_unavailable))).
Proof.
  intros Ht Hget Hs. rewrite (main_after_tests artist_id out Ht).
  unfold get_artist_data. cbv zeta. rewrite Hget. cbn [bind].
  rewrite (status_not_ok _ Hs). reflexivity.
Qed.


End Command_line.

(** ** The further properties at sample responses *)

Lemma sort_by_name_stable_witness :
  exists sorted_artists,
    get_multiple_artists_data
      (serve (ok_response (artists_body
                [artist "b" 1; artist "a" 2; artist "a" 3; artist "b" 4])))
      ["w"; "x"; "y"; "z"] "name" = Ok (VList sorted_artists) /\
    named "a" sorted_artists
    = named "a" [artist "b" 1; artist "a" 2; artist "a" 3; artist "b" 4].
Proof.
  apply (sort_by_name_stable
           (serve (ok_response (artists_body
                     [artist "b" 1; artist "a" 2; artist "a" 3; artist "b" 4])))
           ["w"; "x"; "y"; "z"] _ _ _ "a" eq_refl eq_refl eq_refl
           (artists_body_artists _)).
  - discriminate.
  - repeat constructor; rewrite artist_name; eexists; reflexivity.
Defined.

Lemma sort_by_name_entry_without_name_witness :
  getitem VNone "name" = Raise TypeError /\
  get_multiple_artists_data
    (serve (ok_response (artists_body [artist "Abba" 90; VNone; artist "Queen" 10])))
    ["a"; "b"; "c"] "name" = Raise TypeError.
Proof.
  split; [reflexivity|].
  apply (sort_by_name_entry_without_name
           (serve (ok_response (artists_body [artist "Abba" 90; VNone; artist "Queen" 10])))
           ["a"; "b"; "c"] _ _ [artist "Abba" 90] VNone [artist "Queen" 10] TypeError
           eq_refl eq_refl eq_refl (artists_body_artists _)).
  - constructor; [|constructor]. exists (VStr "Abba"). reflexivity.
  - reflexivity.
Defined.

Lemma sorting_paths_unbound_on_false_entry_witness :
  truthy (VList []) = false /\
  get_multiple_artists_data (serve (ok_response (artists_body []))) ["a"] "popularity"
  = Raise (UnboundLocalError "results").
Proof.
  split; [reflexivity|].
  apply (sorting_paths_unbound_on_false_entry
           (serve (ok_response (artists_body []))) ["a"] "popularity"
           (ok_response (artists_body [])) (artists_body []) (VList [])
           eq_refl eq_refl (or_intror eq_refl) eq_refl (artists_body_artists [])
           eq_refl).
Defined.

Lemma sort_by_default_as_is_witness :
  status_code (ok_response (artists_body two_artists)) = 200 /\
  get_multiple_artists_data (serve (ok_response (artists_body two_artists)))
    ["a"; "b"] "default"
  = (j <- json (ok_response (artists_body two_artists)) ;; getitem j "artists").
Proof.
  split; [reflexivity|].
  apply (sort_by_default_as_is (serve (ok_response (artists_body two_artists)))
           ["a"; "b"] (ok_response (artists_body two_artists)) eq_refl eq_refl).
Defined.

Lemma multiple_artists_client_error_iff_witness :
  status_code not_found <> 200 /\
  raises_client_error
    (get_multiple_artists_data (serve not_found) ["a"; "b"] "name").
Proof.
  assert (status_code not_found <> 200) as H by (simpl; discriminate).
  split; [exact H|].
  apply (multiple_artists_client_error_iff (serve not_found) ["a"; "b"] "name"
           not_found eq_refl).
  left. exact H.
Defined.

Lemma single_artist_client_error_iff_witness :
  status_code not_found <> 200 /\
  raises_client_error (get_artist_data (serve not_found) "bad-id") /\
  raises_client_error (get_artist_albums_titles (serve not_found) "bad-id" 10) /\
  raises_client_error (get_best_songs (serve not_found) "bad-id" "PL").
Proof.
  assert (status_code not_found <> 200) as H by (simpl; discriminate).
  destruct (single_artist_client_error_iff (serve not_found) "bad-id" not_found)
    as (H1 & H2 & H3).
  split; [exact H|]. split; [|split].
  - apply (H1 eq_refl), H.
  - apply (H2 10 eq_refl), H.
  - apply (H3 "PL" eq_refl), H.
Defined.

Lemma album_without_name_witness :
  getitem (VDict ∅) "name" = Raise (KeyError "name") /\
  get_artist_albums_titles
    (serve (ok_response (albums_body [album "Lies"; VDict ∅; album "Use"])))
    gnr_id 10 = Raise (KeyError "name").
Proof.
  split; [reflexivity|].
  apply (album_without_name
           (serve (ok_response (albums_body [album "Lies"; VDict ∅; album "Use"])))
           gnr_id 10 _ _ [album "Lies"] (VDict ∅) [album "Use"] (KeyError "name")
           eq_refl eq_refl eq_refl eq_refl).
  - constructor; [|constructor]. exists (VStr "Lies"). reflexivity.
  - reflexivity.
Defined.

Lemma track_without_field_witness :
  getitem (album "Patience") "popularity" = Raise (KeyError "popularity") /\
  get_best_songs
    (serve (ok_response (tracks_body [track "Paradise City" 81; album "Patience"])))
    gnr_id "PL" = Raise (KeyError "popularity").
Proof.
  split; [reflexivity|].
  apply (track_without_field
           (serve (ok_response (tracks_body [track "Paradise City" 81; album "Patience"])))
           gnr_id "PL" _ _ [track "Paradise City" 81] (album "Patience") []
           (KeyError "popularity") eq_refl eq_refl eq_refl eq_refl).
  - constructor; [|constructor].
    split; [exists (VStr "Paradise City") | exists (VInt 81)]; reflexivity.
  - right. split; [exists (VStr "Patience")|]; reflexivity.
Defined.

Lemma ok_status_without_json_witness :
  status_code {| status_code := 200; body := None |} = 200 /\
  get_artist_data (serve {| status_code := 200; body := None |}) gnr_id
  = Raise JSONDecodeError /\
  get_multiple_artists_data (serve {| status_code := 200; body := None |})
    ["a"] "name" = Raise JSONDecodeError.
Proof.
  destruct (ok_status_without_json (serve {| status_code := 200; body := None |})
              {| status_code := 200; body := None |} eq_refl eq_refl)
    as (H1 & H2 & _).
  split; [reflexivity|]. split.
  - apply H1. reflexivity.
  - apply H2; [reflexivity|].
    unfold sort_options. rewrite !elem_of_cons. right. left. reflexivity.
Defined.

Lemma ok_status_without_entry_witness :
  (∅ : gmap string value) !! "items" = None /\
  get_artist_albums_titles (serve (ok_response (VDict ∅))) gnr_id 10
  = Raise (KeyError "items") /\
  get_best_songs (serve (ok_response (VDict ∅))) gnr_id "PL"
  = Raise (KeyError "tracks").
Proof.
  destruct (ok_status_without_entry (serve (ok_response (VDict ∅)))
              (ok_response (VDict ∅)) ∅ eq_refl eq_refl) as (_ & H2 & H3).
  split; [reflexivity|]. split.
  - apply H2; reflexivity.
  - apply H3; reflexivity.
Defined.

Lemma unit_tests_passes_iff_witness :
  (status_code {| status_code := 204; body := Some guns_n_roses |} < 400 \/
   600 <= status_code {| status_code := 204; body := Some guns_n_roses |}) /\
  unit_tests (fun _ => Ok {| status_code := 204; body := Some guns_n_roses |}) []
  = ([], Returned tt).
Proof.
  assert (status_code {| status_code := 204; body := Some guns_n_roses |} < 400 \/
          600 <= status_code {| status_code := 204; body := Some guns_n_roses |})
    as H by (left; reflexivity).
  split; [exact H|].
  apply (unit_tests_passes_iff
           (fun _ => Ok {| status_code := 204; body := Some guns_n_roses |}) []).
  exists {| status_code := 204; body := Some guns_n_roses |}, guns_n_roses.
  split; [reflexivity|]. split; [exact H|]. split; reflexivity.
Defined.

Lemma unit_tests_error_status_witness :
  400 <= status_code not_found < 600 /\
  unit_tests (fun _ => Ok not_found) [] = ([], Raised (Exception "Tests failed")).
Proof.
  assert (400 <= status_code not_found < 600) as H by (split; [discriminate | reflexivity]).
  split; [exact H|].
  apply (unit_tests_error_status (fun _ => Ok not_found) not_found [] eq_refl H).
Defined.

Lemma unit_tests_failures_witness :
  unit_tests (fun _ => Ok {| status_code := 200; body := None |}) []
  = ([], Raised (Exn JSONDecodeError)) /\
  ([] : stdout) = [] /\
  (Exn JSONDecodeError = Exception "Tests failed" \/
   (exists e, (Ok {| status_code := 200; body := None |} : result Response) = Raise e /\
              Exn JSONDecodeError = Exn e) \/
   Exn JSONDecodeError = Exn JSONDecodeError \/
   Exn JSONDecodeError = Exn TypeError \/
   Exn JSONDecodeError = Exn (KeyError "name")).
Proof.
  assert (unit_tests (fun _ => Ok {| status_code := 200; body := None |}) []
          = ([], Raised (Exn JSONDecodeError))) as H by reflexivity.
  split; [exact H|].
  exact (unit_tests_failures
           (fun _ => Ok {| status_code := 200; body := None |}) [] []
           (Exn JSONDecodeError) H).
Defined.

Lemma unit_tests_object_without_name_witness :
  (<["id" := VStr gnr_id]> ∅ : gmap string value) !! "name" = None /\
  unit_tests (fun _ => Ok (ok_response (VDict (<["id" := VStr gnr_id]> ∅)))) []
  = ([], Raised (Exn (KeyError "name"))).
Proof.
  split; [reflexivity|].
  exact (unit_tests_object_without_name
           (fun _ => Ok (ok_response (VDict (<["id" := VStr gnr_id]> ∅))))
           (ok_response (VDict (<["id" := VStr gnr_id]> ∅)))
           (<["id" := VStr gnr_id]> ∅) [] eq_refl (or_introl eq_refl) eq_refl eq_refl).
Defined.

Lemma main_self_test_first_witness :
  unit_tests (fun _ => Ok not_found) [] = ([], Raised (Exception "Tests failed")) /\
  main (fun _ => Ok not_found) (route gnr_catalog) None []
  = ([], Raised (Exception "Tests failed")) /\
  unit_tests (fun url => route gnr_catalog url []) [] = ([], Returned tt) /\
  main (fun url => route gnr_catalog url []) (route gnr_catalog) None []
  = ([], Raised (SystemExit 2)).
Proof.
  assert (unit_tests (fun _ => Ok not_found) []
          = ([], Raised (Exception "Tests failed"))) as H1 by reflexivity.
  assert (unit_tests (fun url => route gnr_catalog url []) []
          = ([], Returned tt)) as H2 by reflexivity.
  split; [exact H1|]. split; [|split; [exact H2|]].
  - apply (main_self_test_first (fun _ => Ok not_found) (route gnr_catalog) None []),
      H1.
  - apply (main_self_test_first (fun url => route gnr_catalog url [])
             (route gnr_catalog) None []), H2.
Defined.

Lemma main_reports_witness :
  unit_tests (fun url => route gnr_catalog url []) [] = ([], Returned tt) /\
  main (fun url => route gnr_catalog url []) (route gnr_catalog) (Some gnr_id) []
  = (report (VStr "Guns N' Roses")
       (VList [VStr "Lies"; VStr "Appetite"])
       (VList [VList [VStr "Patience"; VInt 70];
               VList [VStr "Paradise City"; VInt 81]]),
     Returned tt).
Proof.
  assert (unit_tests (fun url => route gnr_catalog url []) []
          = ([], Returned tt)) as H by reflexivity.
  split; [exact H|].
  apply (main_reports (fun url => route gnr_catalog url []) (route gnr_catalog)
           gnr_id [] (ok_response guns_n_roses) (ok_response (albums_body gnr_albums))
           (ok_response (tracks_body gnr_tracks)) guns_n_roses
           (albums_body gnr_albums) (tracks_body gnr_tracks)
           (VStr "Guns N' Roses") gnr_albums [VStr "Lies"; VStr "Appetite"]
           gnr_tracks [(VStr "Patience", VInt 70); (VStr "Paradise City", VInt 81)]
           H eq_refl eq_refl eq_refl).
  - split; [|split]; reflexivity.
  - split; reflexivity.
  - split; [reflexivity|]. split; [reflexivity|]. repeat constructor.
  - split; [reflexivity|]. split; [reflexivity|]. repeat constructor.
Defined.

Lemma main_artist_not_found_witness :
  status_code not_found <> 200 /\
  main (fun url => route gnr_catalog url []) (serve not_found) (Some "bad-id") []
  = ([], Raised (Exn (SpotifyClientException msg_unavailable))).
Proof.
  assert (status_code not_found <> 200) as H by (simpl; discriminate).
  split; [exact H|].
  apply (main_artist_not_found (fun url => route gnr_catalog url [])
           (serve not_found) "bad-id" [] not_found eq_refl eq_refl H).
Defined.

